(** * House-price regression pipeline: a shallow embedding and its properties

    The development follows the Python sources module by module:

    - [config.py]                          the [CONFIG] dictionary;
    - [house_analysis/data_processing.py]  [load_data], [preprocess_data],
                                           [prepare_model_data], [make_predictions];
    - [house_analysis/model.py]            [train_model], [evaluate_model],
                                           [save_model], [get_model_formula],
                                           [load_model].

    Conventions of the embedding.

    - A Python float that takes part in the regression arithmetic is a real
      number ([R]); rounding is not modelled, so an equality proved here is an
      equality "within floating-point tolerance" of the program.  NaN, which
      pandas uses as the missing-value marker, is kept explicit ([CNaN] in a
      cell, [None] for a statistic that is undefined).
    - The one place where the binary64 value itself decides the outcome, the
      product [test_size * n_samples] whose ceiling is the test-set size, is
      computed with primitive binary64 floats.
    - A function that can raise returns an [outcome]; code that reads or writes
      the file system or mutates data frames threads the state explicitly
      ([io]).
    - pandas, scikit-learn, [os], [pickle] and [json] are libraries the
      program calls.  The parts of them the program relies on are written out
      in the sections named after them; the parts that cannot be written as
      functions of their visible input (the string-to-float parser, the CSV
      reader, the seeded shuffle, the least-squares solver) are variables of
      the section [Pipeline]. *)

From Stdlib Require Import Reals Lra Lia ZArith Ascii String.
From Stdlib Require PrimFloat FloatOps SpecFloat Uint63.
From stdpp Require Import base option list strings gmap.

Set Warnings "-register-all".

(* ===================================================================== *)
(** * Python runtime: exceptions and outcomes *)
(* ===================================================================== *)

(** Modelled from the spec: [house_analysis/exceptions.py] is not among the
    sources.  The spec names two error kinds, [DataProcessingError] and
    [ModelOperationError], each carrying a message that includes the
    underlying cause; both are ordinary exceptions (they are raised and are
    caught by [except Exception]).  The message is kept as its fixed prefix
    and the exception whose [str] is interpolated after it, if any.  The
    other constructors are the built-in and library exceptions the calls of
    the program can raise. *)
Inductive exn : Type :=
  | KeyError (key : string)
  | IndexError
  | ValueError (why : string)
  | UnboundLocalError (name : string)
  | FileNotFoundError (path : string)
  | IsADirectoryError (path : string)
  | NotADirectoryError (path : string)
  | FileExistsError (path : string)
  | UnpicklingError
  | JSONDecodeError
  | ParserError
  | DataProcessingError (msg : string) (cause : option exn)
  | ModelOperationError (msg : string) (cause : option exn).

Inductive outcome (A : Type) : Type :=
  | Ok (a : A)
  | Raise (e : exn).
Arguments Ok {A} a.
Arguments Raise {A} e.

#[global] Instance outcome_ret : MRet outcome := @Ok.
#[global] Instance outcome_bind : MBind outcome := λ A B f m,
  match m with Ok a => f a | Raise e => Raise e end.
#[global] Instance outcome_fmap : FMap outcome := λ A B f m,
  match m with Ok a => Ok (f a) | Raise e => Raise e end.

(** [try: m except Exception as e: h e] *)
Definition try_except {A} (m : outcome A) (h : exn → outcome A) : outcome A :=
  match m with Ok a => Ok a | Raise e => h e end.

Definition is_ok {A} (m : outcome A) : bool :=
  match m with Ok _ => true | Raise _ => false end.

Definition is_DataProcessingError (e : exn) : bool :=
  match e with DataProcessingError _ _ => true | _ => false end.
Definition is_ModelOperationError (e : exn) : bool :=
  match e with ModelOperationError _ _ => true | _ => false end.

(** Indexing a sequence, [xs[i]], raises [IndexError] out of range. *)
Definition getitem {A} (xs : list A) (i : nat) : outcome A :=
  match xs !! i with Some x => Ok x | None => Raise IndexError end.

(** State and exceptions together: a computation over a state [S] returns a
    result and the state it leaves behind, also when it raises. *)
Definition io (S A : Type) : Type := S → outcome A * S.

#[global] Instance io_ret {S} : MRet (io S) := λ A a s, (Ok a, s).
#[global] Instance io_bind {S} : MBind (io S) := λ A B f m s,
  match m s with
  | (Ok a, s') => f a s'
  | (Raise e, s') => (Raise e, s')
  end.

Definition io_gets {S A} (f : S → A) : io S A := λ s, (Ok (f s), s).
Definition io_raise {S A} (e : exn) : io S A := λ s, (Raise e, s).
Definition io_lift {S A} (m : outcome A) : io S A := λ s, (m, s).
Definition io_try {S A} (m : io S A) (h : exn → io S A) : io S A := λ s,
  match m s with
  | (Ok a, s') => (Ok a, s')
  | (Raise e, s') => h e s'
  end.

(** [for x in xs: body], with the loop-carried variable [acc]. *)
Fixpoint for_each {S A B} (xs : list A) (acc : B) (body : B → A → io S B)
  : io S B :=
  match xs with
  | [] => mret acc
  | x :: xs' => acc' ← body acc x; for_each xs' acc' body
  end.

(* ===================================================================== *)
(** * Binary64 arithmetic used for the split size *)
(* ===================================================================== *)

Module Float64.
Import PrimFloat FloatOps SpecFloat.

Definition of_nat (n : nat) : float :=
  of_uint63 (Uint63.of_Z (Z.of_nat n)).

(** [math.ceil]: the least integer not below a finite float; infinities
    and NaN have none ([OverflowError], [ValueError] in Python). *)
Definition ceil (f : float) : option Z :=
  match Prim2SF f with
  | S754_zero _ => Some 0%Z
  | S754_finite sign m e =>
      let mz := Z.pos m in
      Some (if sign
            then (- (if (0 <=? e)%Z then mz * 2 ^ e else mz / 2 ^ (- e)))%Z
            else (if (0 <=? e)%Z then mz * 2 ^ e
                  else - ((- mz) / 2 ^ (- e)))%Z)
  | S754_infinity _ | S754_nan => None
  end.


Definition lt (x y : float) : bool := ltb x y.
Definition mul (x y : float) : float := PrimFloat.mul x y.

(** The literal [0.2], i.e. the binary64 value nearest to one fifth. *)
Definition zero_point_two : float := 0x1.999999999999ap-3%float.
Definition zero : float := 0%float.
Definition one : float := 1%float.
End Float64.

(* ===================================================================== *)
(** * config.py *)
(* ===================================================================== *)

(** The entries of [CONFIG] the pipeline reads.  The dictionary is a
    process-wide mutable object, so the functions below are stated for an
    arbitrary configuration; [default_config] is the literal of the source. *)
Record Config : Type := {
  test_size : PrimFloat.float;
  random_state : Z;
  outlier_threshold : R;
  required_cols : list string;
  feature_cols : list string;
  target_col : string;
  default_model_path : string;
  default_metadata_path : string;
}.

Definition default_config : Config := {|
  test_size := Float64.zero_point_two;
  random_state := 42;
  outlier_threshold := 3;
  required_cols := ["square_footage"; "bedrooms"; "price_thousands"];
  feature_cols := ["square_footage"; "bedrooms"];
  target_col := "price_thousands";
  default_model_path := "resources/housing_model.pkl";
  default_metadata_path := "resources/housing_model_metadata.json";
|}.

(* ===================================================================== *)
(** * Numbers *)
(* ===================================================================== *)

#[global] Instance Rlt_decision (x y : R) : Decision (x < y)%R := Rlt_dec x y.
#[global] Instance Req_decision : EqDecision R := Req_dec_T.

Definition Rsum (xs : list R) : R := foldr Rplus 0%R xs.
Definition Rsqr_dev (m x : R) : R := ((x - m) * (x - m))%R.
Definition dot (xs ys : list R) : R := Rsum (zip_with Rmult xs ys).

(** Arithmetic on a float that may be NaN: NaN propagates. *)
Definition nan_lift2 (f : R → R → R) (a b : option R) : option R :=
  match a, b with Some x, Some y => Some (f x y) | _, _ => None end.

(* ===================================================================== *)
(** * Data model: cells, rows, data frames, arrays *)
(* ===================================================================== *)

(** A value of a data frame: a number, the missing marker NaN, or a string
    (an object column read from a CSV file). *)
Inductive Cell : Type :=
  | CNum (x : R)
  | CNaN
  | CStr (s : string).

(** A row keeps its index label: filtering rows keeps the labels of the
    surviving rows, as pandas does. *)
Record Row : Type := {
  row_label : nat;
  row_cells : gmap string Cell;
}.

Record DataFrame : Type := {
  df_columns : list string;
  df_rows : list Row;
}.

Definition cell_at (r : Row) (col : string) : Cell :=
  default CNaN (row_cells r !! col).

(** The objects a program run holds: data frames, by reference. *)
Abbreviation heap := (gmap nat DataFrame).

(** numpy arrays as [to_numpy] returns them (values not yet validated) and
    as scikit-learn computes with them after validation. *)
Abbreviation ndarray1 := (list Cell).
Abbreviation ndarray2 := (list (list Cell)).
Abbreviation Vector := (list R).
Abbreviation Matrix := (list (list R)).

Record ModelData : Type := {
  X_trained : ndarray2;
  X_test : ndarray2;
  y_trained : ndarray1;
  y_test : ndarray1;
}.

(** The fitted attributes the program reads from the scikit-learn objects. *)
Record StandardScaler : Type := {
  mean_ : Vector;
  scale_ : Vector;
}.

Record LinearRegression : Type := {
  coef_ : Vector;
  intercept_ : R;
}.

(** Metrics are floats; R² is NaN ([None]) on fewer than two samples. *)
Record ModelResult : Type := {
  model : LinearRegression;
  scaler : StandardScaler;
  train_predictions : Vector;
  test_predictions : Vector;
  train_r2 : option R;
  test_r2 : option R;
  train_rmse : R;
  test_rmse : R;
}.

(** The metadata record written next to the model artifact. *)
Record Metadata : Type := {
  md_coefficients : Vector;
  md_intercept : R;
  md_feature : list string;
  md_target : string;
  md_train_r2 : option R;
  md_test_r2 : option R;
  md_train_rmse : R;
  md_test_rmse : R;
}.

(** What a file holds, by what its reader recovers from it: text (a CSV
    file is text for [read_csv]), a pickled dictionary with the keys
    ["model"] and ["scaler"], or a JSON document holding a metadata record. *)
Inductive FileData : Type :=
  | Text (s : string)
  | Pickled (m : LinearRegression) (s : StandardScaler)
  | JsonDoc (md : Metadata).

Record FileSystem : Type := {
  fs_files : gmap string FileData;
  fs_dirs : gset string;
}.

(* ===================================================================== *)
(** * pandas: the operations on values *)
(* ===================================================================== *)

Section Pandas.

(** Python's [float(s)] as [pd.to_numeric] applies it to a string;
    [None] when the string does not denote a number. *)
Variable parse_float : string → option R.

(** [df[col]]: the column as a series; [KeyError] when absent. *)
Definition column (df : DataFrame) (col : string) : outcome ndarray1 :=
  if bool_decide (col ∈ df_columns df)
  then Ok (map (λ r, cell_at r col) (df_rows df))
  else Raise (KeyError col).

(** [df[col] = values]: one value per row; a column that does not exist
    yet is appended. *)
Definition set_cell (col : string) (r : Row) (v : Cell) : Row :=
  {| row_label := row_label r; row_cells := <[col := v]> (row_cells r) |}.

Definition set_column (df : DataFrame) (col : string) (values : ndarray1)
  : outcome DataFrame :=
  if bool_decide (length values = length (df_rows df))
  then Ok {| df_columns := if bool_decide (col ∈ df_columns df)
                           then df_columns df else df_columns df ++ [col];
             df_rows := zip_with (set_cell col) (df_rows df) values |}
  else Raise (ValueError "length of values does not match length of index").

(** [pd.to_numeric(series, errors="coerce")] *)
Definition to_numeric_cell (c : Cell) : Cell :=
  match c with
  | CNum x => CNum x
  | CNaN => CNaN
  | CStr s => match parse_float s with Some x => CNum x | None => CNaN end
  end.
Definition to_numeric (s : ndarray1) : ndarray1 := map to_numeric_cell s.

Definition isna (c : Cell) : bool :=
  match c with CNaN => true | _ => false end.

(** [df[cols]] for a list of column names. *)
Definition has_columns (df : DataFrame) (cols : list string) : outcome unit :=
  match filter (λ c, c ∉ df_columns df) cols with
  | [] => Ok tt
  | c :: _ => Raise (KeyError c)
  end.

(** [df[cols].isna().any().any()] *)
Definition any_isna (df : DataFrame) (cols : list string) : outcome bool :=
  _ ← has_columns df cols;
  Ok (existsb (λ r, existsb (λ c, isna (cell_at r c)) cols) (df_rows df)).

(** [df.dropna(subset=cols)] *)
Definition row_complete (cols : list string) (r : Row) : bool :=
  forallb (λ c, negb (isna (cell_at r c))) cols.
Definition dropna (df : DataFrame) (cols : list string) : outcome DataFrame :=
  _ ← has_columns df cols;
  Ok {| df_columns := df_columns df;
        df_rows := List.filter (row_complete cols) (df_rows df) |}.

(** [df[mask]] for a boolean series aligned with the rows. *)
Fixpoint select {A} (mask : list bool) (xs : list A) : list A :=
  match mask, xs with
  | b :: mask', x :: xs' =>
      if b then x :: select mask' xs' else select mask' xs'
  | _, _ => []
  end.
Definition boolean_index (df : DataFrame) (mask : list bool) : DataFrame :=
  {| df_columns := df_columns df; df_rows := select mask (df_rows df) |}.

(** The values a reduction sees: NaN is skipped ([skipna=True]). *)
Definition series_values (s : ndarray1) : Vector :=
  omap (λ c, match c with CNum x => Some x | _ => None end) s.

(** [series.mean()]: NaN on an empty series. *)
Definition series_mean (s : ndarray1) : option R :=
  let xs := series_values s in
  match xs with
  | [] => None
  | _ => Some (Rsum xs / INR (length xs))%R
  end.

(** [series.std()]: the sample standard deviation ([ddof=1]); NaN on
    fewer than two values. *)
Definition series_std (s : ndarray1) : option R :=
  let xs := series_values s in
  match series_mean s with
  | Some m =>
      if bool_decide (2 ≤ length xs)
      then Some (sqrt (Rsum (map (Rsqr_dev m) xs) / (INR (length xs) - 1)))%R
      else None
  | None => None
  end.

(** Elementwise [series < bound] and [series > bound]: a comparison with
    NaN is false. *)
Definition cell_lt (c : Cell) (bound : option R) : bool :=
  match c, bound with
  | CNum x, Some b => bool_decide (x < b)%R
  | _, _ => false
  end.
Definition cell_gt (c : Cell) (bound : option R) : bool :=
  match c, bound with
  | CNum x, Some b => bool_decide (b < x)%R
  | _, _ => false
  end.

(** [df[cols].to_numpy()] and [df[col].to_numpy()] *)
Definition to_numpy2 (df : DataFrame) (cols : list string) : outcome ndarray2 :=
  _ ← has_columns df cols;
  Ok (map (λ r, map (cell_at r) cols) (df_rows df)).
Definition to_numpy1 (df : DataFrame) (col : string) : outcome ndarray1 :=
  column df col.

(** ** Data frames as objects

    A frame variable of the program is a reference; [copy], [dropna] and
    boolean indexing return new objects, column assignment changes the
    object it is applied to. *)

Definition deref (l : nat) : io heap DataFrame := λ h,
  match h !! l with
  | Some d => (Ok d, h)
  | None => (Raise (UnboundLocalError "df"), h)
  end.
Definition alloc (d : DataFrame) : io heap nat := λ h,
  let l := fresh (dom h) in (Ok l, <[l := d]> h).
Definition assign (l : nat) (d : DataFrame) : io heap unit := λ h,
  (Ok tt, <[l := d]> h).

Definition df_copy (l : nat) : io heap nat :=
  d ← deref l; alloc d.
Definition df_getitem (l : nat) (col : string) : io heap ndarray1 :=
  d ← deref l; io_lift (column d col).
Definition df_setitem (l : nat) (col : string) (values : ndarray1)
  : io heap unit :=
  d ← deref l; d' ← io_lift (set_column d col values); assign l d'.
Definition df_any_isna (l : nat) (cols : list string) : io heap bool :=
  d ← deref l; io_lift (any_isna d cols).
Definition df_dropna (l : nat) (cols : list string) : io heap nat :=
  d ← deref l; d' ← io_lift (dropna d cols); alloc d'.
Definition df_boolean_index (l : nat) (mask : list bool) : io heap nat :=
  d ← deref l; alloc (boolean_index d mask).

End Pandas.

(* ===================================================================== *)
(** * scikit-learn: validation, scaler, regression, metrics, split *)
(* ===================================================================== *)

Section Sklearn.

Variable parse_float : string → option R.

(** [LinearRegression.fit] centers the data and solves the least-squares
    problem with a LAPACK routine; the solver is taken as given: from the
    design matrix and the targets it returns the coefficients and the
    intercept.  No property of the solution is assumed. *)
Variable lstsq : Matrix → Vector → Vector * R.

(** [numpy.random.RandomState(seed).permutation(n)]: a function of the
    seed and the length, since [random_state] is passed as an integer. *)
Variable rng_permutation : Z → nat → list nat.

(** ** Input validation ([check_array]) *)

Definition as_float (c : Cell) : outcome (option R) :=
  match c with
  | CNum x => Ok (Some x)
  | CNaN => Ok None
  | CStr s =>
      match parse_float s with
      | Some x => Ok (Some x)
      | None => Raise (ValueError "could not convert string to float")
      end
  end.

Definition finite (x : option R) : outcome R :=
  match x with
  | Some v => Ok v
  | None => Raise (ValueError "Input contains NaN")
  end.

Definition n_features (X : Matrix) : nat :=
  match X with row :: _ => length row | [] => 0 end.

Definition check_array_1d (y : ndarray1) : outcome Vector :=
  ys ← mapM as_float y;
  ys ← mapM finite ys;
  if bool_decide (ys = [])
  then Raise (ValueError "Found array with 0 sample(s)")
  else Ok ys.

Definition check_array (X : ndarray2) : outcome Matrix :=
  M ← mapM (mapM as_float) X;
  M ← mapM (mapM finite) M;
  if bool_decide (M = [])
  then Raise (ValueError "Found array with 0 sample(s)")
  else if bool_decide (n_features M = 0)
  then Raise (ValueError "Found array with 0 feature(s)")
  else Ok M.

(** A validated matrix is compared with the feature count seen in [fit]. *)
Definition check_n_features (expected : nat) (M : Matrix) : outcome unit :=
  if forallb (λ row, length row =? expected) M
  then Ok tt
  else Raise (ValueError "X has a different number of features than expected").

Definition check_consistent_length {A B} (xs : list A) (ys : list B)
  : outcome unit :=
  if bool_decide (length xs = length ys)
  then Ok tt
  else Raise (ValueError "Found input variables with inconsistent numbers of samples").

(** ** StandardScaler *)

Definition matrix_column (M : Matrix) (j : nat) : Vector :=
  map (λ row, nth j row 0%R) M.

Definition column_mean (col : Vector) : R :=
  (Rsum col / INR (length col))%R.

(** The population variance ([ddof=0]). *)
Definition column_var (col : Vector) : R :=
  (Rsum (map (Rsqr_dev (column_mean col)) col) / INR (length col))%R.

Definition handle_zeros_in_scale (s : R) : R :=
  if decide (s = 0%R) then 1%R else s.

Definition scaler_fit (X : ndarray2) : outcome StandardScaler :=
  M ← check_array X;
  let cols := map (matrix_column M) (seq 0 (n_features M)) in
  Ok {| mean_ := map column_mean cols;
        scale_ := map (λ col, handle_zeros_in_scale (sqrt (column_var col)))
                      cols |}.

Definition scale_row (sc : StandardScaler) (row : Vector) : Vector :=
  zip_with Rdiv (zip_with Rminus row (mean_ sc)) (scale_ sc).

Definition scaler_transform (sc : StandardScaler) (X : ndarray2)
  : outcome Matrix :=
  M ← check_array X;
  _ ← check_n_features (length (mean_ sc)) M;
  Ok (map (scale_row sc) M).

Definition scaler_fit_transform (X : ndarray2)
  : outcome (StandardScaler * Matrix) :=
  sc ← scaler_fit X;
  M ← scaler_transform sc X;
  Ok (sc, M).

(** ** LinearRegression *)

Definition check_matrix (M : Matrix) : outcome unit :=
  if bool_decide (M = [])
  then Raise (ValueError "Found array with 0 sample(s)")
  else if bool_decide (n_features M = 0)
  then Raise (ValueError "Found array with 0 feature(s)")
  else Ok tt.

Definition regression_fit (M : Matrix) (y : ndarray1)
  : outcome LinearRegression :=
  _ ← check_matrix M;
  ys ← check_array_1d y;
  _ ← check_consistent_length M ys;
  let '(coef, intercept) := lstsq M ys in
  Ok {| coef_ := coef; intercept_ := intercept |}.

Definition predict_row (m : LinearRegression) (row : Vector) : R :=
  (dot row (coef_ m) + intercept_ m)%R.

Definition regression_predict (m : LinearRegression) (M : Matrix)
  : outcome Vector :=
  _ ← check_matrix M;
  _ ← check_n_features (length (coef_ m)) M;
  Ok (map (predict_row m) M).

(** ** Metrics *)

Definition squared_errors (y_true y_pred : Vector) : Vector :=
  zip_with (λ y p, ((y - p) * (y - p))%R) y_true y_pred.

(** [r2_score]: NaN on fewer than two samples; a constant target gives 1
    for a perfect prediction and 0 otherwise. *)
Definition r2_score (y_true : ndarray1) (y_pred : Vector)
  : outcome (option R) :=
  _ ← check_consistent_length y_true y_pred;
  ys ← check_array_1d y_true;
  if bool_decide (length y_pred < 2) then Ok None
  else
    let numerator := Rsum (squared_errors ys y_pred) in
    let denominator := Rsum (map (Rsqr_dev (column_mean ys)) ys) in
    Ok (Some (if decide (denominator = 0%R)
              then if decide (numerator = 0%R) then 1%R else 0%R
              else (1 - numerator / denominator)%R)).

Definition mean_squared_error (y_true : ndarray1) (y_pred : Vector)
  : outcome R :=
  _ ← check_consistent_length y_true y_pred;
  ys ← check_array_1d y_true;
  Ok (Rsum (squared_errors ys y_pred) / INR (length ys))%R.

(** ** train_test_split

    [train_test_split(X, y, test_size=f, random_state=seed)] with a float
    [test_size], no [train_size] and shuffling (the default): the arrays
    must have the same length; [_validate_shuffle_split] computes the sizes;
    [ShuffleSplit] draws one permutation of the row indices from a generator
    seeded with [seed]; the arrays are indexed with the two index lists. *)

(** [_validate_shuffle_split] with a float [test_size] and no
    [train_size]: the test count is the ceiling of the binary64 product,
    the training count is the rest and must not be zero. *)
Definition test_count (n_samples : nat) (test_size : PrimFloat.float)
  : option Z :=
  Float64.ceil (Float64.mul test_size (Float64.of_nat n_samples)).

Definition validate_shuffle_split (n_samples : nat)
    (test_size : PrimFloat.float) : outcome (Z * Z) :=
  if negb (Float64.lt Float64.zero test_size
           && Float64.lt test_size Float64.one)
  then Raise (ValueError "test_size should be in the (0, 1) range")
  else
    match test_count n_samples test_size with
    | None => Raise (ValueError "cannot convert float to integer")
    | Some n_test =>
        let n_train := (Z.of_nat n_samples - n_test)%Z in
        if (n_train =? 0)%Z
        then Raise (ValueError "the resulting train set will be empty")
        else Ok (n_train, n_test)
    end.

(** [xs[a:b]] for non-negative bounds. *)
Definition slice {A} (a b : nat) (xs : list A) : list A :=
  take (b - a) (drop a xs).

(** [ShuffleSplit]: the first [n_test] entries of the permutation are the
    test rows, the next [n_train] the training rows. *)
Definition shuffle_split (n_samples : nat) (test_size : PrimFloat.float)
    (seed : Z) : outcome (list nat * list nat) :=
  '(n_train, n_test) ← validate_shuffle_split n_samples test_size;
  let permutation := rng_permutation seed n_samples in
  let ind_test := slice 0 (Z.to_nat n_test) permutation in
  let ind_train :=
    slice (Z.to_nat n_test) (Z.to_nat (n_test + n_train)) permutation in
  Ok (ind_train, ind_test).

(** [a[indices]] *)
Definition take_rows {A} (xs : list A) (indices : list nat) : outcome (list A) :=
  mapM (getitem xs) indices.

Definition train_test_split {A B} (X : list A) (y : list B)
    (test_size : PrimFloat.float) (seed : Z)
  : outcome (list A * list A * list B * list B) :=
  _ ← check_consistent_length X y;
  '(train, test) ← shuffle_split (length X) test_size seed;
  X_train ← take_rows X train;
  X_test ← take_rows X test;
  y_train ← take_rows y train;
  y_test ← take_rows y test;
  Ok (X_train, X_test, y_train, y_test).

End Sklearn.

(* ===================================================================== *)
(** * os, pickle, json: files and directories *)
(* ===================================================================== *)

Section FileSystemModel.

Definition is_sep (c : ascii) : bool := Ascii.eqb c "/"%char.

Fixpoint drop_while {A} (p : A → bool) (xs : list A) : list A :=
  match xs with
  | x :: xs' => if p x then drop_while p xs' else xs
  | [] => []
  end.
Fixpoint take_while {A} (p : A → bool) (xs : list A) : list A :=
  match xs with
  | x :: xs' => if p x then x :: take_while p xs' else []
  | [] => []
  end.

(** [posixpath.split]: the head is everything up to the last slash, with
    trailing slashes stripped unless it consists of slashes only. *)
Definition path_split (p : string) : string * string :=
  let rp := rev (list_ascii_of_string p) in
  let rtail := take_while (λ c, negb (is_sep c)) rp in
  let rhead := drop_while (λ c, negb (is_sep c)) rp in
  let rhead' := if forallb is_sep rhead then rhead
                else drop_while is_sep rhead in
  (string_of_list_ascii (rev rhead'), string_of_list_ascii (rev rtail)).

Definition os_path_dirname (p : string) : string := fst (path_split p).

Definition is_root (p : string) : bool :=
  negb (String.eqb p "") && forallb is_sep (list_ascii_of_string p).

Definition os_path_isfile (fs : FileSystem) (p : string) : bool :=
  bool_decide (is_Some (fs_files fs !! p)).
Definition os_path_isdir (fs : FileSystem) (p : string) : bool :=
  is_root p || bool_decide (p ∈ fs_dirs fs).
Definition os_path_exists (fs : FileSystem) (p : string) : bool :=
  os_path_isfile fs p || os_path_isdir fs p.

(** The checks every system call makes on the directory that is to hold
    the entry: the empty head is the current directory. *)
Definition check_parent (fs : FileSystem) (p : string) : outcome unit :=
  let parent := os_path_dirname p in
  if String.eqb parent "" || os_path_isdir fs parent then Ok tt
  else if os_path_isfile fs parent then Raise (NotADirectoryError p)
  else Raise (FileNotFoundError p).

Definition os_mkdir (name : string) : io FileSystem unit := λ fs,
  if String.eqb name "" then (Raise (FileNotFoundError name), fs)
  else if os_path_exists fs name then (Raise (FileExistsError name), fs)
  else match check_parent fs name with
       | Raise e => (Raise e, fs)
       | Ok _ => (Ok tt, {| fs_files := fs_files fs;
                            fs_dirs := {[ name ]} ∪ fs_dirs fs |})
       end.

(** [os.makedirs(name)]: creates the missing ancestors first.  The
    recursion is on the head of the path, which is shorter than the path;
    [os_makedirs] starts it with the length of the path as fuel. *)
Definition makedirs_split (name : string) : string * string :=
  let '(head, tail) := path_split name in
  if String.eqb tail "" then path_split head else (head, tail).

Fixpoint makedirs_rec (fuel : nat) (name : string) : io FileSystem unit :=
  let '(head, tail) := makedirs_split name in
  finished ← (match fuel with
              | S fuel' =>
                  missing ← io_gets (λ fs, negb (os_path_exists fs head));
                  if negb (String.eqb head "") && negb (String.eqb tail "")
                     && missing
                  then
                    _ ← io_try (makedirs_rec fuel' head)
                               (λ e, match e with
                                     | FileExistsError _ => mret tt
                                     | _ => io_raise e
                                     end);
                    (* xxx/newdir/. exists if xxx/newdir exists *)
                    mret (String.eqb tail ".")
                  else mret false
              | O => mret false
              end);
  if finished : bool then mret tt else os_mkdir name.
Definition os_makedirs (name : string) : io FileSystem unit :=
  makedirs_rec (String.length name) name.

(** [with open(path, "w") as f: dump(data, f)]: creates or replaces the
    file. *)
Definition write_file (path : string) (data : FileData) : io FileSystem unit :=
  λ fs,
  if String.eqb path "" then (Raise (FileNotFoundError path), fs)
  else if os_path_isdir fs path then (Raise (IsADirectoryError path), fs)
  else match check_parent fs path with
       | Raise e => (Raise e, fs)
       | Ok _ => (Ok tt, {| fs_files := <[path := data]> (fs_files fs);
                            fs_dirs := fs_dirs fs |})
       end.

(** [open(path, "r")] and reading the whole file. *)
Definition read_file (path : string) : io FileSystem FileData := λ fs,
  match fs_files fs !! path with
  | Some data => (Ok data, fs)
  | None => if os_path_isdir fs path
            then (Raise (IsADirectoryError path), fs)
            else (Raise (FileNotFoundError path), fs)
  end.



End FileSystemModel.

(* ===================================================================== *)
(** * The program *)
(* ===================================================================== *)

Section Pipeline.

Variable CONFIG : Config.
Variable parse_float : string → option R.
(** [pd.read_csv] on the content of a file. *)
Variable read_csv : FileData → outcome DataFrame.
Variable lstsq : Matrix → Vector → Vector * R.
Variable rng_permutation : Z → nat → list nat.

(** ** house_analysis/data_processing.py *)

Definition load_data (filepath : string) : io FileSystem DataFrame :=
  isfile ← io_gets (λ fs, os_path_isfile fs filepath);
  if negb isfile
  then io_raise (DataProcessingError "file does not exists" None)
  else
    io_try
      (data ← read_file filepath;
       df ← io_lift (read_csv data);
       let missing_cols :=
         list_difference (required_cols CONFIG) (df_columns df) in
       if negb (bool_decide (missing_cols = []))
       then io_raise (DataProcessingError "columns missing, required" None)
       else mret df)
      (λ e, io_raise (DataProcessingError "error loading data" (Some e))).

(** The body of the outlier loop for one column. *)
Definition filter_outliers (processed_df : nat) (col : string)
  : io heap nat :=
  values ← df_getitem processed_df col;
  let mean := series_mean values in
  let standard_deviation := series_std values in
  let threshold := outlier_threshold CONFIG in
  let lower_bound :=
    nan_lift2 Rminus mean
      (nan_lift2 Rmult (Some threshold) standard_deviation) in
  let upper_bound :=
    nan_lift2 Rplus mean
      (nan_lift2 Rmult (Some threshold) standard_deviation) in
  let outliers :=
    map (λ v, cell_lt v lower_bound || cell_gt v upper_bound) values in
  if existsb (λ b, b) outliers
  then df_boolean_index processed_df (map negb outliers)
  else mret processed_df.

Definition outlier_pass (processed_df : nat) : io heap nat :=
  for_each (required_cols CONFIG) processed_df filter_outliers.

Definition preprocess_data (df : nat) : io heap nat :=
  processed_df ← df_copy df;
  _ ← for_each (required_cols CONFIG) tt (λ _ col,
        values ← df_getitem processed_df col;
        df_setitem processed_df col (to_numeric parse_float values));
  missing ← df_any_isna processed_df (required_cols CONFIG);
  processed_df ← (if missing : bool
                  then df_dropna processed_df (required_cols CONFIG)
                  else mret processed_df);
  outlier_pass processed_df.

Definition prepare_model_data (df : DataFrame) : outcome ModelData :=
  X ← to_numpy2 df (feature_cols CONFIG);
  y ← to_numpy1 df (target_col CONFIG);
  '(X_trained, X_test, y_trained, y_test) ←
    train_test_split rng_permutation X y
      (test_size CONFIG) (random_state CONFIG);
  Ok {| X_trained := X_trained; X_test := X_test;
        y_trained := y_trained; y_test := y_test |}.

Definition make_predictions (df : DataFrame) (model : LinearRegression)
    (scaler : StandardScaler) : outcome Vector :=
  try_except
    (X ← to_numpy2 df (required_cols CONFIG);
     X_scaled ← scaler_transform parse_float scaler X;
     regression_predict model X_scaled)
    (λ e, Raise (ModelOperationError "failed to make prediction" (Some e))).

(** ** house_analysis/model.py *)

Definition train_model (data : ModelData)
  : outcome (LinearRegression * StandardScaler) :=
  '(scaler, X_scaled) ← scaler_fit_transform parse_float (X_trained data);
  model ← regression_fit parse_float lstsq X_scaled (y_trained data);
  Ok (model, scaler).

Definition evaluate_model (data : ModelData) (model : LinearRegression)
    (scaler : StandardScaler) : outcome ModelResult :=
  X_trained_scaled ← scaler_transform parse_float scaler (X_trained data);
  X_test_scaled ← scaler_transform parse_float scaler (X_test data);
  trained_predictions ← regression_predict model X_trained_scaled;
  test_predictions ← regression_predict model X_test_scaled;
  train_r2 ← r2_score parse_float (y_trained data) trained_predictions;
  test_r2 ← r2_score parse_float (y_test data) test_predictions;
  train_mse ← mean_squared_error parse_float (y_trained data) trained_predictions;
  test_mse ← mean_squared_error parse_float (y_test data) test_predictions;
  Ok {| model := model; scaler := scaler;
        train_predictions := trained_predictions;
        test_predictions := test_predictions;
        train_r2 := train_r2; test_r2 := test_r2;
        train_rmse := sqrt train_mse; test_rmse := sqrt test_mse |}.

(** numpy's elementwise operation on two one-dimensional arrays: equal
    lengths, or one of them of length one, which is broadcast. *)
Definition broadcast2 (f : R → R → R) (xs ys : Vector) : outcome Vector :=
  if bool_decide (length xs = length ys) then Ok (zip_with f xs ys)
  else match xs, ys with
       | [x], _ => Ok (map (f x) ys)
       | _, [y] => Ok (map (λ x, f x y) xs)
       | _, _ => Raise (ValueError "operands could not be broadcast together")
       end.

(** The loop of [get_model_formula]: the state is the list built so far
    and the loop variable [i], which stays bound after the loop.  (The two
    assertions before it, that [scale_] and [mean_] are not [None], hold of
    every fitted scaler, and a [StandardScaler] record here is a fitted
    one.) *)
Fixpoint formula_loop (model : LinearRegression) (scaler : StandardScaler)
    (range : list nat) (coefficients : Vector) (i : option nat)
  : outcome (Vector * option nat) :=
  match range with
  | [] => Ok (coefficients, i)
  | i' :: range' =>
      c ← getitem (coef_ model) i';
      s ← getitem (scale_ scaler) i';
      formula_loop model scaler range' (coefficients ++ [(c / s)%R]) (Some i')
  end.

Definition get_model_formula (result : ModelResult) : outcome (R * Vector) :=
  let model := model result in
  let scaler := scaler result in
  '(coefficients, i) ←
    formula_loop model scaler (seq 0 (length (coef_ model))) [] None;
  i ← match i with
      | Some i => Ok i
      | None => Raise (UnboundLocalError "i")
      end;
  c ← getitem (coef_ model) i;
  ratios ← broadcast2 Rdiv (map (Rmult c) (mean_ scaler)) (scale_ scaler);
  let intercept := (intercept_ model - Rsum ratios)%R in
  Ok (intercept, coefficients).

Definition metadata_of (result : ModelResult) (intercept : R)
    (coefficients : Vector) : Metadata :=
  {| md_coefficients := coefficients;
     md_intercept := intercept;
     md_feature := feature_cols CONFIG;
     md_target := target_col CONFIG;
     md_train_r2 := train_r2 result;
     md_test_r2 := test_r2 result;
     md_train_rmse := train_rmse result;
     md_test_rmse := test_rmse result |}.

Definition ensure_dir (dir : string) : io FileSystem unit :=
  present ← io_gets (λ fs, os_path_exists fs dir);
  if negb (String.eqb dir "") && negb present
  then os_makedirs dir
  else mret tt.

Definition save_model (result : ModelResult)
    (model_path metadata_path : string) : io FileSystem unit :=
  io_try
    (let model_dir := os_path_dirname model_path in
     _ ← ensure_dir model_dir;
     let metadata_dir := os_path_dirname metadata_path in
     _ ← ensure_dir metadata_dir;
     _ ← write_file model_path (Pickled (model result) (scaler result));
     '(intercept, coefficients) ← io_lift (get_model_formula result);
     let metadata := metadata_of result intercept coefficients in
     write_file metadata_path (JsonDoc metadata))
    (λ e, io_raise (ModelOperationError "error saving model" (Some e))).


End Pipeline.

(* ===================================================================== *)
(** * The specification's descriptions, as definitions *)
(* ===================================================================== *)

(** ** Formula in original units (FormulaExtractor)

      coefficient_i(raw) = coefficient_i(scaled) / std_i
      intercept(raw) = intercept(scaled) − Σ_i coefficient_i(scaled) · mean_i / std_i *)
Definition spec_formula (m : LinearRegression) (sc : StandardScaler)
  : R * Vector :=
  ((intercept_ m
    - Rsum (zip_with Rdiv (zip_with Rmult (coef_ m) (mean_ sc)) (scale_ sc)))%R,
   zip_with Rdiv (coef_ m) (scale_ sc)).

(** The two ways of predicting that the specification equates. *)
Definition predict_raw (formula : R * Vector) (row : Vector) : R :=
  (dot row formula.2 + formula.1)%R.
Definition predict_scaled (m : LinearRegression) (sc : StandardScaler)
    (row : Vector) : R :=
  predict_row m (scale_row sc row).

(** ** Cleaning (Preprocessor) *)

Section CleaningSpec.

Variable parse_float : string → option R.
(** The outlier threshold k. *)
Variable k : R.

(** Numeric coercion of the required columns of one row. *)
Definition coerce_row (cols : list string) (r : Row) : Row :=
  foldl (λ r col, set_cell col r (to_numeric_cell parse_float (cell_at r col)))
        r cols.

Definition sample_mean (xs : Vector) : R :=
  (Rsum xs / INR (length xs))%R.

(** The sample standard deviation, for two values or more. *)
Definition sample_std (xs : Vector) : R :=
  sqrt (Rsum (map (λ x, (x - sample_mean xs) * (x - sample_mean xs))%R xs)
        / (INR (length xs) - 1))%R.

(** A value lies strictly outside the bounds [lo, hi]. *)
Definition strictly_outside (lo hi : R) (c : Cell) : Prop :=
  match c with
  | CNum v => (v < lo)%R ∨ (hi < v)%R
  | _ => False
  end.

#[global] Instance strictly_outside_dec lo hi c :
  Decision (strictly_outside lo hi c).
Proof. destruct c; simpl; apply _. Defined.

(** One column of the outlier pass over the current rows: μ and σ are
    taken over these rows, and the rows strictly outside
    [μ − k·σ, μ + k·σ] are dropped.  With fewer than two values there is
    no sample standard deviation and nothing is dropped. *)
Definition outlier_step_spec (rows : list Row) (col : string) : list Row :=
  let xs := series_values (map (λ r, cell_at r col) rows) in
  if decide (2 ≤ length xs)
  then
    let μ := sample_mean xs in
    let σ := sample_std xs in
    filter (λ r, ¬ strictly_outside (μ - k * σ) (μ + k * σ) (cell_at r col))
           rows
  else rows.

(** The columns are processed one at a time, in order, each on the rows
    the earlier ones left. *)
Definition outlier_pass_spec (cols : list string) (rows : list Row)
  : list Row :=
  foldl outlier_step_spec rows cols.

(** The outlier mask of the source, [(values < lower_bound) |
    (values > upper_bound)], as a function of the row. *)
Definition is_outlier (rows : list Row) (col : string) (r : Row) : bool :=
  let values := map (λ r, cell_at r col) rows in
  let spread := nan_lift2 Rmult (Some k) (series_std values) in
  cell_lt (cell_at r col) (nan_lift2 Rminus (series_mean values) spread)
  || cell_gt (cell_at r col) (nan_lift2 Rplus (series_mean values) spread).

Definition coerce_frame (cols : list string) (d : DataFrame) : DataFrame :=
  {| df_columns := df_columns d;
     df_rows := map (coerce_row cols) (df_rows d) |}.

(** The whole of [clean]: coercion, missing-row removal, outlier pass. *)
Definition clean_rows (cols : list string) (rows : list Row) : list Row :=
  outlier_pass_spec cols
    (List.filter (row_complete cols) (map (coerce_row cols) rows)).

End CleaningSpec.

(** ** Persistence (ModelStore) *)


(** A file system that has every file path and every directory of another. *)
Definition fs_extends (fs fs' : FileSystem) : Prop :=
  dom (fs_files fs) ⊆ dom (fs_files fs') ∧ fs_dirs fs ⊆ fs_dirs fs'.

(** A computation that removes no file and no directory. *)
Definition only_adds {A} (m : io FileSystem A) : Prop :=
  ∀ fs, fs_extends fs (m fs).2.

(** ** Validated input *)


(* ===================================================================== *)
(** * Concrete inputs *)
(* ===================================================================== *)

(** ** Library behaviour on the concrete inputs *)

(** None of the concrete frames holds a string. *)
Definition sample_parse_float : string → option R := λ _, None.

(** A shuffle: the reversed range. *)
Definition sample_permutation : Z → nat → list nat := λ _ n, reverse (seq 0 n).

(** ** A training set with price = 50 + 0.1·square_footage + 10·bedrooms *)

Definition formula_data : ModelData :=
  {| X_trained := [[CNum 1000; CNum 1]; [CNum 3000; CNum 1];
                   [CNum 1000; CNum 3]; [CNum 3000; CNum 3]];
     X_test := [[CNum 2000; CNum 2]];
     y_trained := [CNum 160; CNum 360; CNum 180; CNum 380];
     y_test := [CNum 270] |}.

(** The least-squares solution on the standardized training features: it
    reproduces every training target. *)
Definition formula_lstsq : Matrix → Vector → Vector * R :=
  λ _ _, ([100; 10]%R, 270%R).

Definition formula_model : LinearRegression :=
  {| coef_ := [100; 10]%R; intercept_ := 270%R |}.
Definition formula_scaler : StandardScaler :=
  {| mean_ := [2000; 2]%R; scale_ := [1000; 1]%R |}.

(** ** A data frame of six houses *)

Definition house (label : nat) (sqft bedrooms price : R) : Row :=
  {| row_label := label;
     row_cells := {[ "square_footage" := CNum sqft;
                     "bedrooms" := CNum bedrooms;
                     "price_thousands" := CNum price ]} |}.

Definition six_houses : DataFrame :=
  {| df_columns := ["square_footage"; "bedrooms"; "price_thousands"];
     df_rows := [house 0 1000 1 160; house 1 3000 1 360; house 2 1000 3 180;
                 house 3 3000 3 380; house 4 2000 2 270; house 5 1500 2 220] |}.

(** ** Three houses, the third far from the others, and a threshold of one
       standard deviation *)

Definition strict_config : Config := {|
  test_size := test_size default_config;
  random_state := random_state default_config;
  outlier_threshold := 1;
  required_cols := required_cols default_config;
  feature_cols := feature_cols default_config;
  target_col := target_col default_config;
  default_model_path := default_model_path default_config;
  default_metadata_path := default_metadata_path default_config;
|}.

Definition three_houses : DataFrame :=
  {| df_columns := ["square_footage"; "bedrooms"; "price_thousands"];
     df_rows := [house 0 1000 2 100; house 1 1000 3 200; house 2 4000 9 150] |}.

(** ** Three rows as read from a file, one with text where a number should
       be and one with a missing price *)

Definition messy_houses : DataFrame :=
  {| df_columns := ["square_footage"; "bedrooms"; "price_thousands"];
     df_rows := [house 0 1000 2 100;
                 {| row_label := 1;
                    row_cells := {[ "square_footage" := CStr "n/a";
                                    "bedrooms" := CNum 3;
                                    "price_thousands" := CNum 200 ]} |};
                 {| row_label := 2;
                    row_cells := {[ "square_footage" := CNum 1500;
                                    "bedrooms" := CNum 3;
                                    "price_thousands" := CNaN ]} |}] |}.

(** The same houses in a frame with another index and an extra column. *)
Definition listing (label : nat) (sqft bedrooms price : R) (town : string)
  : Row :=
  {| row_label := label;
     row_cells := {[ "town" := CStr town;
                     "square_footage" := CNum sqft;
                     "bedrooms" := CNum bedrooms;
                     "price_thousands" := CNum price ]} |}.

Definition six_listings : DataFrame :=
  {| df_columns := ["town"; "square_footage"; "bedrooms"; "price_thousands"];
     df_rows := [listing 10 1000 1 160 "Hue"; listing 11 3000 1 360 "Hue";
                 listing 12 1000 3 180 "Hanoi"; listing 13 3000 3 380 "Hanoi";
                 listing 14 2000 2 270 "Da Nang";
                 listing 15 1500 2 220 "Da Nang"] |}.

(** ** A file system with nothing in it *)


(** ** The evaluation of the fitted model, and the files after saving it *)

Definition formula_result : ModelResult :=
  match evaluate_model sample_parse_float formula_data formula_model
          formula_scaler with
  | Ok r => r
  | Raise _ => {| model := formula_model; scaler := formula_scaler;
                  train_predictions := []; test_predictions := [];
                  train_r2 := None; test_r2 := None;
                  train_rmse := 0; test_rmse := 0 |}
  end.


(** ** A model with one feature *)

Definition one_feature_result : ModelResult :=
  {| model := {| coef_ := [100]%R; intercept_ := 270%R |};
     scaler := {| mean_ := [2000]%R; scale_ := [1000]%R |};
     train_predictions := []; test_predictions := [];
     train_r2 := None; test_r2 := None;
     train_rmse := 0; test_rmse := 0 |}.

(** ** A frame of one house *)

Definition one_house : DataFrame :=
  {| df_columns := ["square_footage"; "bedrooms"; "price_thousands"];
     df_rows := [house 0 1000 2 100] |}.

(** ** A file system with the table of the six houses in a file *)

Definition sample_read_csv : FileData → outcome DataFrame := λ data,
  match data with
  | Text _ => Ok six_houses
  | _ => Raise ParserError
  end.

Definition csv_fs : FileSystem :=
  {| fs_files := {[ "data/houses.csv" := Text "square_footage,bedrooms,price_thousands" ]};
     fs_dirs := {[ "data" ]} |}.

(** ** A model and a scaler for three columns *)

Definition three_column_model : LinearRegression :=
  {| coef_ := [100; 10; 1]%R; intercept_ := 270%R |}.
Definition three_column_scaler : StandardScaler :=
  {| mean_ := [2000; 2; 250]%R; scale_ := [1000; 1; 100]%R |}.

(* ===================================================================== *)
(** * Lemmas on outcomes and stateful computations *)
(* ===================================================================== *)

Section RuntimeLemmas.
Lemma io_bind_unfold {S A B} (m : io S A) (f : A → io S B) (s : S) :
  (m ≫= f) s = match m s with
               | (Ok a, s') => f a s'
               | (Raise e, s') => (Raise e, s')
               end.
Proof. reflexivity. Qed.

Lemma bind_Ok {A B} (m : outcome A) (f : A → outcome B) (b : B) :
  m ≫= f = Ok b → ∃ a, m = Ok a ∧ f a = Ok b.
Proof. destruct m as [a|e]; [eauto|done]. Qed.

Lemma mapM_Ok {A B} (f : A → outcome B) (xs : list A) (ys : list B) :
  mapM f xs = Ok ys → Forall2 (λ x y, f x = Ok y) xs ys.
Proof.
  revert ys. induction xs as [|x xs IH]; intros ys; simpl.
  - intros [= <-]. constructor.
  - intros (y & Hy & (ys' & Hys & [= <-])%bind_Ok)%bind_Ok.
    constructor; auto.
Qed.

Lemma mapM_Ok_length {A B} (f : A → outcome B) (xs : list A) (ys : list B) :
  mapM f xs = Ok ys → length ys = length xs.
Proof. intros H%mapM_Ok. symmetry. by eapply Forall2_length. Qed.
End RuntimeLemmas.

(* ===================================================================== *)
(** * Properties of cleaning ([preprocess_data]) *)
(* ===================================================================== *)

Section OutlierPassProperties.
Implicit Types (h : heap) (d : DataFrame) (l : nat).

Lemma column_ok d col :
  col ∈ df_columns d → column d col = Ok (map (λ r, cell_at r col) (df_rows d)).
Proof. intros. unfold column. by rewrite bool_decide_true. Qed.

Lemma has_columns_ok d cols : cols ⊆ df_columns d → has_columns d cols = Ok tt.
Proof.
  intros Hsub. unfold has_columns.
  replace (filter (λ c, c ∉ df_columns d) cols) with (@nil string); [done|].
  symmetry. induction cols as [|c cols IH]; [done|].
  rewrite filter_cons_False.
  - apply IH. intros x Hx. apply Hsub. by right.
  - intros Hn. apply Hn, Hsub. by left.
Qed.

Lemma zip_with_map_same {A B C} (f : A → B → C) (g : A → B) (xs : list A) :
  zip_with f xs (map g xs) = map (λ x, f x (g x)) xs.
Proof. induction xs; simpl; congruence. Qed.

Lemma select_map {A} (p : A → bool) (xs : list A) :
  select (map p xs) xs = List.filter p xs.
Proof. induction xs as [|x xs IH]; simpl; [done|]. rewrite IH. done. Qed.

Lemma df_getitem_ok h l d col :
  h !! l = Some d → col ∈ df_columns d →
  df_getitem l col h = (Ok (map (λ r, cell_at r col) (df_rows d)), h).
Proof.
  intros Hl Hc. unfold df_getitem, deref, io_lift.
  rewrite io_bind_unfold, Hl. by rewrite column_ok.
Qed.

Lemma df_setitem_ok h l d col (g : Cell → Cell) :
  h !! l = Some d → col ∈ df_columns d →
  df_setitem l col (map g (map (λ r, cell_at r col) (df_rows d))) h
  = (Ok tt, <[l := {| df_columns := df_columns d;
                      df_rows := map (λ r, set_cell col r (g (cell_at r col)))
                                     (df_rows d) |}]> h).
Proof.
  intros Hl Hc. unfold df_setitem, deref, io_lift, assign, set_column.
  rewrite io_bind_unfold, Hl. rewrite io_bind_unfold.
  rewrite !length_map, bool_decide_true by done.
  rewrite bool_decide_true by done.
  rewrite map_map, zip_with_map_same. done.
Qed.

Lemma row_complete_negb cols r :
  existsb (λ c, isna (cell_at r c)) cols = negb (row_complete cols r).
Proof.
  unfold row_complete. induction cols as [|c cols IH]; simpl; [done|].
  by rewrite negb_andb, negb_involutive, IH.
Qed.

Lemma any_isna_ok d cols :
  cols ⊆ df_columns d →
  any_isna d cols = Ok (negb (forallb (row_complete cols) (df_rows d))).
Proof.
  intros Hsub. unfold any_isna. rewrite has_columns_ok by done. simpl.
  f_equal. induction (df_rows d) as [|r rows IH]; simpl; [done|].
  by rewrite IH, negb_andb, row_complete_negb.
Qed.

Lemma dropna_ok d cols :
  cols ⊆ df_columns d →
  dropna d cols = Ok {| df_columns := df_columns d;
                        df_rows := List.filter (row_complete cols) (df_rows d) |}.
Proof. intros. unfold dropna. by rewrite has_columns_ok. Qed.

Lemma filter_all {A} (p : A → bool) (xs : list A) :
  forallb p xs = true → List.filter p xs = xs.
Proof.
  induction xs as [|x xs IH]; simpl; [done|].
  intros [Hx Hxs]%andb_true_iff. rewrite Hx. f_equal. by apply IH.
Qed.

Lemma filter_bool_prop {A} (p : A → bool) (P : A → Prop)
    `{∀ x, Decision (P x)} (xs : list A) :
  (∀ x, p x = true ↔ P x) → List.filter p xs = filter P xs.
Proof.
  intros Hp. induction xs as [|x xs IH]; simpl; [done|].
  rewrite IH. destruct (p x) eqn:Hx.
  - rewrite filter_cons_True; [done|]. by apply Hp.
  - rewrite filter_cons_False; [done|]. rewrite <- Hp. congruence.
Qed.

Lemma list_filter_sublist {A} (p : A → bool) (xs : list A) :
  List.filter p xs `sublist_of` xs.
Proof.
  induction xs as [|x xs IH]; simpl; [done|].
  destruct (p x); [by apply sublist_skip | by apply sublist_cons].
Qed.

Lemma series_std_spec (s : ndarray1) :
  series_std s = if decide (2 ≤ length (series_values s))
                 then Some (sample_std (series_values s)) else None.
Proof.
  unfold series_std, series_mean, sample_std, sample_mean.
  destruct (series_values s) as [|x xs] eqn:Hxs; simpl.
  - done.
  - destruct (decide (2 ≤ S (length xs))).
    + by rewrite bool_decide_true.
    + by rewrite bool_decide_false.
Qed.

Lemma series_mean_spec (s : ndarray1) :
  series_values s ≠ [] → series_mean s = Some (sample_mean (series_values s)).
Proof.
  unfold series_mean, sample_mean. by destruct (series_values s).
Qed.

Lemma outlier_step_spec_sublist k rows col :
  outlier_step_spec k rows col `sublist_of` rows.
Proof.
  unfold outlier_step_spec. destruct (decide _); [apply sublist_filter|done].
Qed.

Lemma outlier_pass_spec_sublist k cols : ∀ rows,
  outlier_pass_spec k cols rows `sublist_of` rows.
Proof.
  unfold outlier_pass_spec.
  induction cols as [|col cols IH]; intros rows; simpl; [done|].
  etrans; [apply IH|apply outlier_step_spec_sublist].
Qed.

Variable CONFIG : Config.

Lemma keep_inliers_spec (rows : list Row) (col : string) :
  List.filter (λ r, negb (is_outlier (outlier_threshold CONFIG) rows col r)) rows
  = outlier_step_spec (outlier_threshold CONFIG) rows col.
Proof.
  unfold outlier_step_spec, is_outlier. rewrite series_std_spec.
  set (xs := series_values _).
  destruct (decide (2 ≤ length xs)) as [Hlen|Hlen].
  - rewrite series_mean_spec by (fold xs; destruct xs; simpl in *; [lia|done]).
    fold xs. simpl. apply filter_bool_prop. intros r.
    destruct (cell_at r col); simpl; try tauto.
    rewrite negb_true_iff, orb_false_iff, !bool_decide_eq_false. tauto.
  - apply filter_all, forallb_forall. intros r _.
    destruct (cell_at r col), (series_mean _); done.
Qed.

Lemma filter_outliers_ok h l d col :
  h !! l = Some d → col ∈ df_columns d →
  ∃ l' h', filter_outliers CONFIG l col h = (Ok l', h')
    ∧ h ⊆ h' ∧ (l' = l ∨ h !! l' = None)
    ∧ h' !! l' = Some {| df_columns := df_columns d;
                         df_rows := outlier_step_spec (outlier_threshold CONFIG)
                                      (df_rows d) col |}.
Proof.
  intros Hl Hc. unfold filter_outliers.
  rewrite io_bind_unfold, (df_getitem_ok _ _ _ _ Hl Hc).
  rewrite <- keep_inliers_spec.
  rewrite map_map. fold (is_outlier (outlier_threshold CONFIG) (df_rows d) col).
  destruct (existsb _ _) eqn:Hany.
  - unfold df_boolean_index, deref, alloc. rewrite io_bind_unfold, Hl.
    assert (h !! fresh (dom h) = None) as Hfresh
      by (apply not_elem_of_dom, is_fresh).
    eexists _, _. split; [reflexivity|]. split_and!.
    + by apply insert_subseteq.
    + by right.
    + rewrite lookup_insert_eq. unfold boolean_index. do 2 f_equal.
      rewrite map_map. apply select_map.
  - eexists _, _. split; [reflexivity|]. split_and!; [done|by left|].
    rewrite Hl. destruct d as [cs rows]; simpl in *. do 2 f_equal.
    symmetry. apply filter_all, forallb_forall. intros r Hr.
    apply negb_true_iff. apply not_true_is_false. intros Hout.
    assert (existsb (λ b : bool, b) (map (is_outlier (outlier_threshold CONFIG) rows col) rows) = true)
      as Ht; [|congruence].
    apply existsb_exists. exists true. split; [|done].
    apply in_map_iff. eauto.
Qed.

Lemma outlier_pass_ok cols : ∀ h l d,
  h !! l = Some d → cols ⊆ df_columns d →
  ∃ l' h', for_each cols l (filter_outliers CONFIG) h = (Ok l', h')
    ∧ h ⊆ h' ∧ (l' = l ∨ h !! l' = None)
    ∧ h' !! l' = Some {| df_columns := df_columns d;
                         df_rows := outlier_pass_spec (outlier_threshold CONFIG)
                                      cols (df_rows d) |}.
Proof.
  induction cols as [|col cols IH]; intros h l d Hl Hsub; simpl.
  - exists l, h. split_and!; [done|done|by left|]. by destruct d.
  - destruct (filter_outliers_ok h l d col Hl) as (l1 & h1 & Hrun & Hsub1 & Hl1 & Hd1).
    { apply Hsub. by left. }
    rewrite io_bind_unfold, Hrun.
    destruct (IH h1 l1 _ Hd1) as (l' & h' & Hrun' & Hsub' & Hl' & Hd').
    { simpl. intros x Hx. apply Hsub. by right. }
    exists l', h'. split_and!; [done|by etrans| |done].
    destruct Hl' as [->|Hnone]; [done|]. right.
    by eapply lookup_weaken_None.
Qed.

Lemma filter_outliers_frame h l col :
  h ⊆ (filter_outliers CONFIG l col h).2.
Proof.
  unfold filter_outliers, df_getitem, deref, io_lift.
  rewrite !io_bind_unfold.
  destruct (h !! l) as [d|] eqn:Hl; simpl; [|done].
  destruct (column d col) as [values|e]; simpl; [|done].
  destruct (existsb _ _); simpl; [|done].
  unfold df_boolean_index, deref, alloc. rewrite io_bind_unfold, Hl. simpl.
  apply insert_subseteq, not_elem_of_dom, is_fresh.
Qed.

Lemma outlier_pass_frame cols : ∀ h l,
  h ⊆ (for_each cols l (filter_outliers CONFIG) h).2.
Proof.
  induction cols as [|col cols IH]; intros h l; simpl; [done|].
  rewrite io_bind_unfold.
  pose proof (filter_outliers_frame h l col) as Hstep.
  destruct (filter_outliers CONFIG l col h) as [[l1|e] h1]; simpl in *;
    [|done].
  etrans; [exact Hstep|apply IH].
Qed.

(** C4 (sequential outlier filtering).  On any frame that has the required
    columns, the outlier pass of [preprocess_data] returns a frame whose
    rows are those of [outlier_pass_spec]: the required columns are taken
    one at a time in their order; for each, the mean and the sample standard
    deviation are computed over the rows that survived the earlier columns,
    the bounds are [μ − k·σ, μ + k·σ] with k the configured threshold, and
    exactly the rows whose value lies strictly outside them are dropped. *)
Theorem outlier_pass_sequential (h : heap) (processed_df : nat)
    (d : DataFrame) :
  h !! processed_df = Some d →
  required_cols CONFIG ⊆ df_columns d →
  ∃ l' h', outlier_pass CONFIG processed_df h = (Ok l', h')
    ∧ h' !! l' = Some {| df_columns := df_columns d;
                         df_rows := outlier_pass_spec
                                      (outlier_threshold CONFIG)
                                      (required_cols CONFIG) (df_rows d) |}.
Proof.
  intros Hl Hsub.
  destruct (outlier_pass_ok (required_cols CONFIG) h processed_df d Hl Hsub)
    as (l' & h' & Hrun & _ & _ & Hd').
  exists l', h'. by split.
Qed.
End OutlierPassProperties.

Section CleaningProperties.
Implicit Types (h : heap) (d : DataFrame) (l : nat).

Variable CONFIG : Config.
Variable parse_float : string → option R.

Lemma coerce_loop cols : ∀ d h l,
  h !! l = Some d → cols ⊆ df_columns d →
  for_each cols tt
    (λ _ col, values ← df_getitem l col;
              df_setitem l col (to_numeric parse_float values)) h
  = (Ok tt, <[l := coerce_frame parse_float cols d]> h).
Proof.
  induction cols as [|col cols IH]; intros d h l Hl Hsub; simpl.
  - unfold coerce_frame, coerce_row. simpl. rewrite map_id.
    destruct d; simpl. by rewrite insert_id.
  - assert (col ∈ df_columns d) as Hc by (apply Hsub; by left).
    rewrite io_bind_unfold, io_bind_unfold.
    rewrite (df_getitem_ok _ _ _ _ Hl Hc).
    unfold to_numeric. rewrite (df_setitem_ok _ _ _ _ _ Hl Hc).
    erewrite IH; [| by rewrite lookup_insert_eq |].
    + rewrite insert_insert_eq. unfold coerce_frame. simpl.
      by rewrite map_map.
    + simpl. intros x Hx. apply Hsub. by right.
Qed.

(** Whatever the outcome, the objects of the initial heap are untouched. *)
Lemma coerce_loop_frame cols : ∀ d h l,
  h !! l = Some d →
  ∃ d', (for_each cols tt
           (λ _ col, values ← df_getitem l col;
                     df_setitem l col (to_numeric parse_float values)) h).2
        = <[l := d']> h.
Proof.
  induction cols as [|col cols IH]; intros d h l Hl; simpl.
  - exists d. by rewrite insert_id.
  - rewrite !io_bind_unfold. unfold df_getitem, deref, io_lift.
    rewrite io_bind_unfold, Hl.
    destruct (column d col) as [values|e]; simpl;
      [|exists d; by rewrite insert_id].
    unfold df_setitem, deref, io_lift, assign.
    rewrite io_bind_unfold, Hl, io_bind_unfold.
    destruct (set_column d col _) as [d1|e]; simpl;
      [|exists d; by rewrite insert_id].
    destruct (IH d1 (<[l := d1]> h) l) as [d' Hd'];
      [by rewrite lookup_insert_eq|].
    exists d'. rewrite insert_insert_eq in Hd'. rewrite <- Hd'.
    by destruct (for_each _ _ _ _) as [[]].
Qed.

Lemma preprocess_data_ok h l d :
  h !! l = Some d → required_cols CONFIG ⊆ df_columns d →
  ∃ l' h', preprocess_data CONFIG parse_float l h = (Ok l', h')
    ∧ h !! l' = None ∧ h ⊆ h'
    ∧ h' !! l' = Some {| df_columns := df_columns d;
                         df_rows := clean_rows parse_float
                                      (outlier_threshold CONFIG)
                                      (required_cols CONFIG) (df_rows d) |}.
Proof.
  intros Hl Hsub. unfold preprocess_data.
  set (cols := required_cols CONFIG) in *.
  assert (h !! fresh (dom h) = None) as Hfresh
    by (apply not_elem_of_dom, is_fresh).
  set (l1 := fresh (dom h)) in *.
  rewrite io_bind_unfold. unfold df_copy at 1, deref, alloc.
  rewrite io_bind_unfold, Hl. fold l1.
  rewrite io_bind_unfold.
  rewrite (coerce_loop cols d _ l1) by (by rewrite ?lookup_insert_eq).
  rewrite insert_insert_eq.
  set (d2 := coerce_frame parse_float cols d). set (h2 := <[l1 := d2]> h).
  assert (h ⊆ h2) as Hh2 by (by apply insert_subseteq).
  assert (h2 !! l1 = Some d2) as Hl1 by apply lookup_insert_eq.
  rewrite io_bind_unfold. unfold df_any_isna, deref, io_lift.
  rewrite io_bind_unfold, Hl1, (any_isna_ok d2 cols) by done.
  rewrite io_bind_unfold.
  set (d3 := {| df_columns := df_columns d;
                df_rows := List.filter (row_complete cols) (df_rows d2) |}).
  assert (∃ l2 h3,
    (if negb (forallb (row_complete cols) (df_rows d2))
     then df_dropna l1 cols else mret l1) h2 = (Ok l2, h3)
    ∧ h2 ⊆ h3 ∧ (l2 = l1 ∨ h2 !! l2 = None) ∧ h3 !! l2 = Some d3)
    as (l2 & h3 & Hrun & Hh3 & Hl2 & Hd3).
  { destruct (forallb _ _) eqn:Hall; simpl.
    - exists l1, h2. split_and!; [done|done|by left|].
      rewrite Hl1. unfold d3. rewrite filter_all by done. done.
    - assert (h2 !! fresh (dom h2) = None) as Hfresh2
        by (apply not_elem_of_dom, is_fresh).
      unfold df_dropna, deref, io_lift, alloc.
      rewrite io_bind_unfold, Hl1, io_bind_unfold, dropna_ok by done.
      eexists _, _. split; [reflexivity|]. split_and!.
      + by apply insert_subseteq.
      + by right.
      + by rewrite lookup_insert_eq. }
  rewrite Hrun.
  destruct (outlier_pass_ok CONFIG cols h3 l2 d3 Hd3 Hsub)
    as (l' & h' & Hrun' & Hsub' & Hl' & Hd').
  unfold outlier_pass. fold cols. rewrite Hrun'.
  exists l', h'. split_and!; [done| |by do 2 etrans|done].
  assert (h !! l2 = None) as Hnone2.
  { destruct Hl2 as [->|Hn]; [done|]. by eapply lookup_weaken_None. }
  destruct Hl' as [->|Hn]; [done|].
  eapply lookup_weaken_None; [done|]. by etrans.
Qed.

Lemma preprocess_data_frame h l :
  h ⊆ (preprocess_data CONFIG parse_float l h).2.
Proof.
  unfold preprocess_data. rewrite io_bind_unfold.
  unfold df_copy at 1, deref, alloc. rewrite io_bind_unfold.
  destruct (h !! l) as [d|] eqn:Hl; simpl; [|done].
  set (l1 := fresh (dom h)).
  assert (h !! l1 = None) as Hfresh by (apply not_elem_of_dom, is_fresh).
  rewrite io_bind_unfold.
  destruct (coerce_loop_frame (required_cols CONFIG) d (<[l1 := d]> h) l1)
    as [d2 Hd2]; [by rewrite lookup_insert_eq|].
  rewrite insert_insert_eq in Hd2.
  destruct (for_each _ tt _ _) as [[[]|e] h2]; simpl in Hd2; subst h2;
    [|by apply insert_subseteq].
  assert (h ⊆ <[l1 := d2]> h) as Hh2 by (by apply insert_subseteq).
  rewrite io_bind_unfold. unfold df_any_isna, deref, io_lift.
  rewrite io_bind_unfold, lookup_insert_eq.
  destruct (any_isna d2 _) as [missing|e]; simpl; [|done].
  rewrite io_bind_unfold.
  destruct missing; simpl.
  - unfold df_dropna, deref, io_lift, alloc.
    rewrite io_bind_unfold, lookup_insert_eq, io_bind_unfold.
    destruct (dropna d2 _) as [d3|e]; simpl; [|done].
    etrans; [|apply outlier_pass_frame].
    etrans; [exact Hh2|].
    apply insert_subseteq, not_elem_of_dom, is_fresh.
  - etrans; [exact Hh2|]. apply outlier_pass_frame.
Qed.


Lemma clean_rows_sublist k cols rows :
  clean_rows parse_float k cols rows
  `sublist_of` List.filter (row_complete cols)
                 (map (coerce_row parse_float cols) rows).
Proof. apply outlier_pass_spec_sublist. Qed.

Lemma to_numeric_cell_idemp c :
  to_numeric_cell parse_float (to_numeric_cell parse_float c)
  = to_numeric_cell parse_float c.
Proof. destruct c as [x| |s]; simpl; [done|done|]. by destruct (parse_float s). Qed.

Lemma cell_at_set_cell col r v c :
  cell_at (set_cell col r v) c = if decide (c = col) then v else cell_at r c.
Proof.
  unfold cell_at, set_cell. simpl. destruct (decide (c = col)) as [->|Hne].
  - by rewrite lookup_insert_eq.
  - by rewrite lookup_insert_ne.
Qed.

Lemma cell_at_coerce_row cols : ∀ r c,
  c ∈ cols →
  cell_at (coerce_row parse_float cols r) c
  = to_numeric_cell parse_float (cell_at r c).
Proof.
  assert (∀ cols r c,
    cell_at (coerce_row parse_float cols r) c
    = if decide (c ∈ cols) then to_numeric_cell parse_float (cell_at r c)
      else cell_at r c) as Hgen.
  { clear cols. induction cols as [|col cols IH]; intros r c.
    - destruct (decide (c ∈ [])) as [Hin|]; [|done].
      by apply elem_of_nil in Hin.
    - change (coerce_row parse_float (col :: cols) r)
        with (coerce_row parse_float cols
                (set_cell col r (to_numeric_cell parse_float (cell_at r col)))).
      rewrite IH, cell_at_set_cell.
      destruct (decide (c = col)) as [->|Hne].
      + destruct (decide (col ∈ col :: cols)) as [_|Hn];
          [|exfalso; apply Hn; by left].
        destruct (decide (col ∈ cols)); [apply to_numeric_cell_idemp|done].
      + destruct (decide (c ∈ cols)) as [Hin|Hnin];
          destruct (decide (c ∈ col :: cols)) as [Hin'|Hnin']; try done.
        * exfalso. apply Hnin'. by right.
        * by apply elem_of_cons in Hin' as [?|?]. }
  intros r c Hc. by rewrite Hgen, decide_True.
Qed.

Lemma row_label_coerce_row cols : ∀ r,
  row_label (coerce_row parse_float cols r) = row_label r.
Proof.
  unfold coerce_row. induction cols as [|col cols IH]; intros r; simpl;
    [done|]. by rewrite IH.
Qed.

Lemma clean_rows_origin k cols rows r' :
  r' ∈ clean_rows parse_float k cols rows →
  ∃ r, r ∈ rows ∧ r' = coerce_row parse_float cols r
       ∧ row_label r' = row_label r
       ∧ ∀ c, c ∈ cols → cell_at r c ≠ CNaN ∧ ∃ x, cell_at r' c = CNum x.
Proof.
  intros Hin.
  pose proof (clean_rows_sublist k cols rows) as Hsub.
  eapply elem_of_sublist in Hin; [|exact Hsub].
  apply list_elem_of_In, filter_In in Hin as [Hin Hcomplete].
  apply in_map_iff in Hin as (r & <- & Hr).
  exists r. split_and!; [by apply list_elem_of_In|done|
                         apply row_label_coerce_row|].
  intros c Hc. unfold row_complete in Hcomplete.
  rewrite forallb_forall in Hcomplete.
  specialize (Hcomplete c (proj1 (list_elem_of_In _ _) Hc)).
  rewrite cell_at_coerce_row in * by done.
  destruct (cell_at r c) as [x| |s]; simpl in *; [split; eauto|done|].
  destruct (parse_float s); simpl in *; [split; eauto|done].
Qed.

(** C5 (preprocessing is pure and never adds rows).  Whatever the input
    and the outcome, every data frame that existed before the call is
    unchanged after it ([h ⊆ h']); and on a frame with the required columns
    the call returns a new frame whose rows are, in order, rows of the
    input after numeric coercion, each of them coming from an input row that
    is not missing in any required column. *)
Theorem preprocess_data_pure (h : heap) (df : nat) :
  let run := preprocess_data CONFIG parse_float df h in
  h ⊆ run.2 ∧
  ∀ d, h !! df = Some d → required_cols CONFIG ⊆ df_columns d →
    ∃ l' d', run.1 = Ok l' ∧ h !! l' = None ∧ run.2 !! l' = Some d'
      ∧ df_rows d' `sublist_of`
          map (coerce_row parse_float (required_cols CONFIG)) (df_rows d)
      ∧ ∀ r', r' ∈ df_rows d' →
          ∃ r, r ∈ df_rows d
            ∧ r' = coerce_row parse_float (required_cols CONFIG) r
            ∧ row_label r' = row_label r
            ∧ ∀ c, c ∈ required_cols CONFIG →
                cell_at r c ≠ CNaN ∧ ∃ x, cell_at r' c = CNum x.
Proof.
  simpl. split; [apply preprocess_data_frame|].
  intros d Hl Hsub.
  destruct (preprocess_data_ok h df d Hl Hsub)
    as (l' & h' & Hrun & Hnew & _ & Hd').
  rewrite Hrun. simpl. eexists l', _. split_and!; [done|done|exact Hd'| |].
  - simpl. etrans; [apply clean_rows_sublist|apply list_filter_sublist].
  - simpl. intros r' Hr'. by eapply clean_rows_origin.
Qed.
End CleaningProperties.

(* ===================================================================== *)
(** * Properties of the formula in original units ([get_model_formula]) *)
(* ===================================================================== *)

Section FormulaProperties.

(** The formula of the specification predicts, from a raw row, what the
    model predicts from the scaled row. *)
Lemma spec_formula_equivalence (m : LinearRegression) (sc : StandardScaler)
    (row : Vector) :
  length (coef_ m) = length row →
  length (mean_ sc) = length row →
  length (scale_ sc) = length row →
  predict_raw (spec_formula m sc) row = predict_scaled m sc row.
Proof.
  unfold predict_raw, predict_scaled, predict_row, scale_row, spec_formula.
  simpl. generalize (intercept_ m) as b.
  generalize (coef_ m) as cs, (mean_ sc) as ms, (scale_ sc) as ss.
  induction row as [|x row IH]; intros [|c cs] [|mu ms] [|s ss] b ???;
    simplify_eq/=; unfold dot, Rsum in *; simpl; [lra|].
  specialize (IH cs ms ss b ltac:(lia) ltac:(lia) ltac:(lia)).
  unfold Rdiv in *. lra.
Qed.

(** The loop of the source builds the quotients in order and leaves the
    loop variable at the last index. *)
Lemma formula_loop_spec (m : LinearRegression) (sc : StandardScaler) k :
  ∀ a acc i,
  a + k ≤ length (coef_ m) → a + k ≤ length (scale_ sc) →
  formula_loop m sc (seq a k) acc i
  = Ok (acc ++ zip_with Rdiv (take k (drop a (coef_ m)))
                             (take k (drop a (scale_ sc))),
        match k with 0 => i | S k' => Some (a + k') end).
Proof.
  induction k as [|k IH]; intros a acc i Hc Hs; simpl.
  - by rewrite app_nil_r.
  - unfold getitem.
    destruct (lookup_lt_is_Some_2 (coef_ m) a ltac:(lia)) as [c Hc'].
    destruct (lookup_lt_is_Some_2 (scale_ sc) a ltac:(lia)) as [s Hs'].
    rewrite Hc', Hs'. simpl.
    rewrite IH by lia.
    rewrite (drop_S _ _ _ Hc'), (drop_S _ _ _ Hs'). simpl.
    rewrite <- app_assoc. simpl. do 3 f_equal.
    destruct k; simpl; f_equal; lia.
Qed.

(** What the source computes: the coefficients are those of the
    specification; the intercept subtracts the {e last} scaled coefficient
    times the sum of all the ratios mean_j / scale_j, because the sum is
    taken with the loop variable [i] left over from the loop. *)
Lemma get_model_formula_computes (r : ModelResult) (c_last : R) :
  length (mean_ (scaler r)) = length (coef_ (model r)) →
  length (scale_ (scaler r)) = length (coef_ (model r)) →
  last (coef_ (model r)) = Some c_last →
  get_model_formula r
  = Ok ((intercept_ (model r)
         - Rsum (zip_with Rdiv (map (Rmult c_last) (mean_ (scaler r)))
                          (scale_ (scaler r))))%R,
        zip_with Rdiv (coef_ (model r)) (scale_ (scaler r))).
Proof.
  intros Hm Hs Hlast. unfold get_model_formula.
  rewrite formula_loop_spec by lia. simpl.
  rewrite !drop_0, !firstn_all2 by lia.
  destruct (length (coef_ (model r))) as [|n] eqn:Hn.
  { destruct (coef_ (model r)); simplify_eq/=. }
  simpl. unfold getitem.
  rewrite last_lookup, Hn in Hlast. simpl in Hlast. rewrite Hlast. simpl.
  unfold broadcast2. rewrite length_map. rewrite bool_decide_true by lia.
  done.
Qed.

Lemma handle_zeros_sqrt_square (v s : R) :
  (0 < s)%R → v = (s * s)%R → handle_zeros_in_scale (sqrt v) = s.
Proof.
  intros Hs ->. rewrite sqrt_square by lra. unfold handle_zeros_in_scale.
  destruct (decide (s = 0%R)); [lra | done].
Qed.

End FormulaProperties.

(** The concrete training set is fitted to [formula_scaler] and
    [formula_model]. *)
Lemma formula_scaler_fitted :
  scaler_fit sample_parse_float (X_trained formula_data) = Ok formula_scaler.
Proof.
  unfold scaler_fit, formula_scaler. simpl. f_equal. f_equal.
  - unfold column_mean, Rsum; simpl. repeat f_equal; lra.
  - repeat f_equal.
    + apply handle_zeros_sqrt_square; [lra|].
      unfold column_var, column_mean, Rsum, Rsqr_dev; simpl. lra.
    + apply handle_zeros_sqrt_square; [lra|].
      unfold column_var, column_mean, Rsum, Rsqr_dev; simpl. lra.
Qed.

Lemma formula_model_trained :
  train_model sample_parse_float formula_lstsq formula_data
  = Ok (formula_model, formula_scaler).
Proof.
  unfold train_model, scaler_fit_transform.
  rewrite formula_scaler_fitted. reflexivity.
Qed.

(** C1 (formula equivalence), evaluated on the code.  Training on four rows
    with price = 50 + 0.1·square_footage + 10·bedrooms gives the scaled model
    (100, 10; 270) and the scaler (2000, 2; 1000, 1).  The coefficients
    returned by [get_model_formula] are those of the specification, but the
    intercept is 230 where the specification's formula gives 50, and on the
    raw row (1000, 1) the returned formula predicts 340 where the model
    predicts 160. *)
Theorem get_model_formula_intercept_diverges :
  ∃ r intercept coefficients,
    evaluate_model sample_parse_float formula_data formula_model formula_scaler
      = Ok r
    ∧ get_model_formula r = Ok (intercept, coefficients)
    ∧ coefficients = (spec_formula (model r) (scaler r)).2
    ∧ intercept = 230%R
    ∧ (spec_formula (model r) (scaler r)).1 = 50%R
    ∧ predict_scaled (model r) (scaler r) [1000; 1]%R = 160%R
    ∧ predict_raw (intercept, coefficients) [1000; 1]%R = 340%R.
Proof.
  eexists _, _, _. split; [reflexivity|]. split; [reflexivity|].
  unfold predict_raw, predict_scaled, predict_row, scale_row, spec_formula,
    dot, Rsum; simpl.
  split_and!; [done|lra..].
Qed.

(* ===================================================================== *)
(** * Properties of loading ([load_data]) *)
(* ===================================================================== *)

Section LoadProperties.
Variable CONFIG : Config.
Variable read_csv : FileData → outcome DataFrame.

Lemma list_difference_nil (l k : list string) :
  list_difference l k = [] ↔ l ⊆ k.
Proof.
  split.
  - intros Hnil x Hx. destruct (decide (x ∈ k)) as [|Hn]; [done|].
    assert (x ∈ list_difference l k) as Hd
      by (by apply list_elem_of_difference).
    rewrite Hnil in Hd. by apply elem_of_nil in Hd.
  - intros Hsub. destruct (list_difference l k) as [|x xs] eqn:Hd; [done|].
    assert (x ∈ list_difference l k) as Hx by (rewrite Hd; by left).
    apply list_elem_of_difference in Hx as [Hx Hn]. by apply Hsub in Hx.
Qed.

Lemma not_subseteq_witness (l k : list string) :
  ¬ l ⊆ k → ∃ c, c ∈ l ∧ c ∉ k.
Proof.
  intros Hn. destruct (list_difference l k) as [|x xs] eqn:Hd.
  - by apply list_difference_nil in Hd.
  - exists x. apply list_elem_of_difference. rewrite Hd. by left.
Qed.

(** [load_data], case by case. *)
Lemma load_data_cases (filepath : string) (fs : FileSystem) :
  load_data CONFIG read_csv filepath fs
  = (match fs_files fs !! filepath with
     | None => Raise (DataProcessingError "file does not exists" None)
     | Some data =>
         match read_csv data with
         | Raise e => Raise (DataProcessingError "error loading data" (Some e))
         | Ok df =>
             if bool_decide (required_cols CONFIG ⊆ df_columns df)
             then Ok df
             else Raise (DataProcessingError "error loading data"
                           (Some (DataProcessingError
                                    "columns missing, required" None)))
         end
     end, fs).
Proof.
  unfold load_data. rewrite io_bind_unfold.
  unfold io_gets, os_path_isfile.
  destruct (fs_files fs !! filepath) as [data|] eqn:Hf; simpl.
  - unfold io_try, read_file, io_lift. rewrite !io_bind_unfold, Hf.
    rewrite io_bind_unfold.
    destruct (read_csv data) as [df|e]; simpl; [|done].
    destruct (decide (required_cols CONFIG ⊆ df_columns df)) as [Hs|Hs].
    + rewrite (bool_decide_true (list_difference _ _ = []))
        by (by apply list_difference_nil).
      by rewrite bool_decide_true.
    + rewrite (bool_decide_false (list_difference _ _ = []))
        by (by rewrite list_difference_nil).
      by rewrite bool_decide_false.
  - done.
Qed.

(** C6 (column validation).  [load_data] does not change the file system;
    every exception it raises is a [DataProcessingError]; it raises exactly
    when the path is not a file, or the file cannot be read as a table, or
    the table lacks a required column; and on a table that has every
    required column (extra columns are allowed) it returns that table as
    read. *)
Theorem load_data_column_validation (filepath : string) (fs : FileSystem) :
  let run := load_data CONFIG read_csv filepath fs in
  run.2 = fs
  ∧ (∀ e, run.1 = Raise e → is_DataProcessingError e = true)
  ∧ (is_ok run.1 = false ↔
       fs_files fs !! filepath = None
       ∨ ∃ data, fs_files fs !! filepath = Some data
           ∧ ((∃ e, read_csv data = Raise e)
              ∨ ∃ df c, read_csv data = Ok df
                  ∧ c ∈ required_cols CONFIG ∧ c ∉ df_columns df))
  ∧ (∀ data df, fs_files fs !! filepath = Some data →
       read_csv data = Ok df →
       required_cols CONFIG ⊆ df_columns df →
       run.1 = Ok df).
Proof.
  simpl. rewrite load_data_cases. simpl. split; [done|].
  destruct (fs_files fs !! filepath) as [data|] eqn:Hf.
  - destruct (read_csv data) as [df|e0] eqn:Hr.
    + destruct (decide (required_cols CONFIG ⊆ df_columns df)) as [Hs|Hs].
      * rewrite bool_decide_true by done. split_and!; [done| |].
        -- split; [done|]. intros [|(data' & [= <-] & [[e He]|Hmiss])];
             [done|congruence|].
           destruct Hmiss as (df' & c & Hdf & Hc & Hn).
           rewrite Hr in Hdf. injection Hdf as <-. by apply Hs in Hc.
        -- intros data' df' [= <-]. rewrite Hr. by intros [= <-].
      * rewrite bool_decide_false by done. split_and!.
        -- by intros e [= <-].
        -- split; [|done]. intros _. right. exists data. split; [done|].
           right. apply not_subseteq_witness in Hs as (c & Hc & Hn).
           exists df, c. done.
        -- intros data' df' [= <-]. rewrite Hr. by intros [= <-].
    + split_and!.
      * by intros e [= <-].
      * split; [|done]. intros _. right. exists data. eauto.
      * intros data' df' [= <-]. by rewrite Hr.
  - split_and!; [by intros e [= <-]| |done]. split; [auto|done].
Qed.
End LoadProperties.

(* ===================================================================== *)
(** * Properties of the split ([prepare_model_data]) *)
(* ===================================================================== *)

Section SplitProperties.
Variable CONFIG : Config.
Variable parse_float : string → option R.
Variable lstsq : Matrix → Vector → Vector * R.
Variable rng_permutation : Z → nat → list nat.

Lemma to_numpy2_shape df cols X :
  to_numpy2 df cols = Ok X →
  length X = length (df_rows df) ∧ Forall (λ row, length row = length cols) X.
Proof.
  unfold to_numpy2. intros ([] & _ & [= <-])%bind_Ok.
  rewrite length_map. split; [done|].
  apply Forall_forall. intros row (r & -> & _)%list_elem_of_fmap.
  by rewrite length_map.
Qed.

Lemma take_rows_Ok {A} (xs : list A) idx ys :
  take_rows xs idx = Ok ys →
  Forall2 (λ i y, xs !! i = Some y) idx ys.
Proof.
  intros H%mapM_Ok. eapply Forall2_impl; [exact H|].
  intros i y. unfold getitem. by destruct (xs !! i) eqn:E; intros [= ->].
Qed.

Lemma take_rows_elem_of {A} (xs : list A) idx ys y :
  take_rows xs idx = Ok ys → y ∈ ys → y ∈ xs.
Proof.
  intros H%take_rows_Ok Hy.
  apply list_elem_of_lookup in Hy as [j Hj].
  destruct (Forall2_lookup_r _ _ _ _ _ H Hj) as (i & _ & Hi).
  by eapply list_elem_of_lookup_2.
Qed.

(** The steps of a successful [prepare_model_data]. *)
Lemma prepare_model_data_Ok df data :
  prepare_model_data CONFIG rng_permutation df = Ok data →
  ∃ X y train test,
    to_numpy2 df (feature_cols CONFIG) = Ok X
    ∧ to_numpy1 df (target_col CONFIG) = Ok y
    ∧ length X = length y
    ∧ shuffle_split rng_permutation (length X) (test_size CONFIG)
        (random_state CONFIG) = Ok (train, test)
    ∧ take_rows X train = Ok (X_trained data)
    ∧ take_rows X test = Ok (X_test data)
    ∧ take_rows y train = Ok (y_trained data)
    ∧ take_rows y test = Ok (y_test data).
Proof.
  unfold prepare_model_data, train_test_split.
  intros (X & HX & (y & Hy & ([[[Xtr Xte] ytr] yte] & Hsplit & [= <-])%bind_Ok
    )%bind_Ok)%bind_Ok.
  apply bind_Ok in Hsplit as ([] & Hlen & Hsplit).
  apply bind_Ok in Hsplit as ([train test] & Hss & Hsplit).
  apply bind_Ok in Hsplit as (Xtr' & HXtr & Hsplit).
  apply bind_Ok in Hsplit as (Xte' & HXte & Hsplit).
  apply bind_Ok in Hsplit as (ytr' & Hytr & Hsplit).
  apply bind_Ok in Hsplit as (yte' & Hyte & Hsplit).
  simplify_eq/=.
  exists X, y, train, test. split_and!; try done.
  unfold check_consistent_length in Hlen.
  destruct (bool_decide (length X = length y)) eqn:E; [|done].
  by apply bool_decide_eq_true in E.
Qed.
End SplitProperties.

Section SplitSizeProperties.
Variable CONFIG : Config.
Variable rng_permutation : Z → nat → list nat.



End SplitSizeProperties.

(* ===================================================================== *)
(** * Properties of evaluation and prediction *)
(* ===================================================================== *)

Section MetricsProperties.
Variable parse_float : string → option R.

Lemma Rsum_nonneg (xs : Vector) : Forall (λ x, 0 <= x)%R xs → (0 <= Rsum xs)%R.
Proof. induction 1; unfold Rsum in *; simpl; lra. Qed.

Lemma squared_errors_nonneg ys ps : Forall (λ x, 0 <= x)%R (squared_errors ys ps).
Proof.
  unfold squared_errors. revert ps.
  induction ys as [|y ys IH]; intros [|p ps]; simpl; try by constructor.
  constructor; [|apply IH].
  pose proof (Rle_0_sqr (y - p)) as Hsq. unfold Rsqr in Hsq. lra.
Qed.


End MetricsProperties.

Section EvaluateProperties.
Variable parse_float : string → option R.


End EvaluateProperties.

Section PredictionProperties.
Variable CONFIG : Config.
Variable parse_float : string → option R.
Variable lstsq : Matrix → Vector → Vector * R.
Variable rng_permutation : Z → nat → list nat.

Lemma check_array_Ok X M :
  check_array parse_float X = Ok M →
  M ≠ [] ∧ Forall2 (λ row mrow, length mrow = length row) X M.
Proof.
  unfold check_array.
  intros (M1 & HM1 & (M2 & HM2 & H)%bind_Ok)%bind_Ok.
  destruct (bool_decide (M2 = [])) eqn:Hnil; [done|].
  destruct (bool_decide (n_features M2 = 0)); [done|].
  injection H as <-. apply bool_decide_eq_false in Hnil. split; [done|].
  apply mapM_Ok in HM1, HM2.
  eapply Forall2_trans; [|exact HM1|exact HM2].
  simpl. intros row r1 r2 H1%mapM_Ok_length H2%mapM_Ok_length. congruence.
Qed.

Lemma scaler_fit_Ok X sc :
  scaler_fit parse_float X = Ok sc →
  ∃ M, check_array parse_float X = Ok M
       ∧ length (mean_ sc) = n_features M.
Proof.
  unfold scaler_fit. intros (M & HM & [= <-])%bind_Ok.
  exists M. split; [done|]. simpl. by rewrite !length_map, length_seq.
Qed.

(** The scaler fitted by [train_model] on the output of
    [prepare_model_data] expects as many features as there are feature
    columns. *)
Lemma train_model_n_features df data m sc :
  prepare_model_data CONFIG rng_permutation df = Ok data →
  train_model parse_float lstsq data = Ok (m, sc) →
  length (mean_ sc) = length (feature_cols CONFIG).
Proof.
  intros (X & y & train & test & HX & _ & _ & _ & HXtr & _)%prepare_model_data_Ok.
  unfold train_model, scaler_fit_transform.
  intros ([sc' Xs] & (sc'' & Hfit & (? & _ & [= <- <-])%bind_Ok)%bind_Ok
          & (m' & _ & [= <- <-])%bind_Ok)%bind_Ok.
  apply scaler_fit_Ok in Hfit as (M & HM & ->).
  apply check_array_Ok in HM as [Hne Hshape].
  destruct Hshape as [|row mrow X' M' Hlen _]; [done|]. simpl. rewrite Hlen.
  apply to_numpy2_shape in HX as [_ HX].
  rewrite Forall_forall in HX. apply HX.
  eapply take_rows_elem_of; [exact HXtr|]. by left.
Qed.

(** C10 (make_predictions).  The scaler fitted by [train_model] on the
    feature columns is given the required columns (the features and the
    target) by [make_predictions]; as their number differs from the number
    of features, [make_predictions] raises [ModelOperationError] on every
    data frame. *)
Theorem make_predictions_always_raises (df0 df : DataFrame) (data : ModelData)
    (m : LinearRegression) (sc : StandardScaler) :
  length (required_cols CONFIG) ≠ length (feature_cols CONFIG) →
  prepare_model_data CONFIG rng_permutation df0 = Ok data →
  train_model parse_float lstsq data = Ok (m, sc) →
  ∃ e, make_predictions CONFIG parse_float df m sc
       = Raise (ModelOperationError "failed to make prediction" (Some e)).
Proof.
  intros Hcols Hprep Htrain.
  pose proof (train_model_n_features _ _ _ _ Hprep Htrain) as Hn.
  unfold make_predictions.
  destruct (to_numpy2 df (required_cols CONFIG)) as [X|e] eqn:HX; simpl;
    [|eauto].
  unfold scaler_transform.
  destruct (check_array parse_float X) as [M|e] eqn:HM; simpl; [|eauto].
  assert (check_n_features (length (mean_ sc)) M
          = Raise (ValueError
              "X has a different number of features than expected")) as ->;
    [|simpl; eauto].
  apply check_array_Ok in HM as [Hne Hshape].
  apply to_numpy2_shape in HX as [_ HX].
  destruct Hshape as [|row mrow X' M' Hlen _]; [done|].
  apply Forall_cons in HX as [Hrow _].
  unfold check_n_features. simpl.
  rewrite (proj2 (Nat.eqb_neq _ _)); [done|]. lia.
Qed.
End PredictionProperties.

(* ===================================================================== *)
(** * Properties of persistence ([save_model], [load_model]) *)
(* ===================================================================== *)

Section FileSystemProperties.
Implicit Types (fs : FileSystem).








Variable CONFIG : Config.



Variable parse_float : string → option R.



End FileSystemProperties.

(* ===================================================================== *)
(** * More on persistence ([save_model], [load_model]) *)
(* ===================================================================== *)

Section StoreExtras.
Implicit Types (fs : FileSystem).
Variable CONFIG : Config.




(** ** Nothing is deleted *)

Lemma fs_extends_refl fs : fs_extends fs fs.
Proof. by split. Qed.
Lemma fs_extends_trans fs1 fs2 fs3 :
  fs_extends fs1 fs2 → fs_extends fs2 fs3 → fs_extends fs1 fs3.
Proof. intros [??] [??]. split; by etrans. Qed.

Lemma only_adds_bind {A B} (m : io FileSystem A) (f : A → io FileSystem B) :
  only_adds m → (∀ a, only_adds (f a)) → only_adds (m ≫= f).
Proof.
  intros Hm Hf fs. rewrite io_bind_unfold. specialize (Hm fs).
  destruct (m fs) as [[a|e] fs1]; simpl in *; [|done].
  eapply fs_extends_trans; [exact Hm|apply Hf].
Qed.
Lemma only_adds_try {A} (m : io FileSystem A) (h : exn → io FileSystem A) :
  only_adds m → (∀ e, only_adds (h e)) → only_adds (io_try m h).
Proof.
  intros Hm Hh fs. unfold io_try. specialize (Hm fs).
  destruct (m fs) as [[a|e] fs1]; simpl in *; [done|].
  eapply fs_extends_trans; [exact Hm|apply Hh].
Qed.
Lemma only_adds_ret {A} (a : A) : only_adds (mret a).
Proof. intros fs. apply fs_extends_refl. Qed.
Lemma only_adds_raise {A} (e : exn) : only_adds (@io_raise _ A e).
Proof. intros fs. apply fs_extends_refl. Qed.
Lemma only_adds_gets {A} (f : FileSystem → A) : only_adds (io_gets f).
Proof. intros fs. apply fs_extends_refl. Qed.
Lemma only_adds_lift {A} (m : outcome A) : only_adds (io_lift m).
Proof. intros fs. apply fs_extends_refl. Qed.

Lemma only_adds_mkdir name : only_adds (os_mkdir name).
Proof.
  intros fs. unfold os_mkdir.
  destruct (String.eqb name ""); [apply fs_extends_refl|].
  destruct (os_path_exists fs name); [apply fs_extends_refl|].
  destruct (check_parent fs name); [|apply fs_extends_refl].
  split; simpl; [done|set_solver].
Qed.

Lemma only_adds_makedirs fuel : ∀ name, only_adds (makedirs_rec fuel name).
Proof.
  induction fuel as [|fuel IH]; intros name; cbn [makedirs_rec];
    destruct (makedirs_split name) as [head tail];
    (apply only_adds_bind;
     [|intros []; [apply only_adds_ret|apply only_adds_mkdir]]).
  - apply only_adds_ret.
  - apply only_adds_bind; [apply only_adds_gets|].
    intros missing. destruct (_ && _ && _); [|apply only_adds_ret].
    apply only_adds_bind; [|intros _; apply only_adds_ret].
    apply only_adds_try; [apply IH|].
    intros []; first [apply only_adds_ret | apply only_adds_raise].
Qed.

Lemma only_adds_ensure_dir dir : only_adds (ensure_dir dir).
Proof.
  unfold ensure_dir. apply only_adds_bind; [apply only_adds_gets|].
  intros present. destruct (_ && _); [|apply only_adds_ret].
  apply only_adds_makedirs.
Qed.

Lemma only_adds_write_file path data : only_adds (write_file path data).
Proof.
  intros fs. unfold write_file.
  destruct (String.eqb path ""); [apply fs_extends_refl|].
  destruct (os_path_isdir fs path); [apply fs_extends_refl|].
  destruct (check_parent fs path); [|apply fs_extends_refl].
  split; simpl; [|done]. rewrite dom_insert. set_solver.
Qed.

(** X3.  [save_model] deletes nothing.  Whatever the outcome, every
    path that was a file before the call is a file after it and every
    directory is still there. *)
Theorem save_model_only_adds (r : ModelResult)
    (model_path metadata_path : string) fs :
  let fs' := (save_model CONFIG r model_path metadata_path fs).2 in
  dom (fs_files fs) ⊆ dom (fs_files fs') ∧ fs_dirs fs ⊆ fs_dirs fs'.
Proof.
  simpl. revert fs. change (only_adds (save_model CONFIG r model_path metadata_path)).
  unfold save_model.
  apply only_adds_try; [|intros e; apply only_adds_raise].
  apply only_adds_bind; [apply only_adds_ensure_dir|]. intros _.
  apply only_adds_bind; [apply only_adds_ensure_dir|]. intros _.
  apply only_adds_bind; [apply only_adds_write_file|]. intros _.
  apply only_adds_bind; [apply only_adds_lift|]. intros [intercept coefficients].
  apply only_adds_write_file.
Qed.
End StoreExtras.

(* ===================================================================== *)
(** * More on the formula ([get_model_formula]) *)
(* ===================================================================== *)

Section FormulaExtras.

Lemma formula_loop_short_scale (m : LinearRegression) (sc : StandardScaler) k :
  ∀ a acc i,
  a + k ≤ length (coef_ m) → a ≤ length (scale_ sc) →
  length (scale_ sc) < a + k →
  formula_loop m sc (seq a k) acc i = Raise IndexError.
Proof.
  induction k as [|k IH]; intros a acc i Hc Ha Hs; simpl; [lia|].
  unfold getitem.
  destruct (lookup_lt_is_Some_2 (coef_ m) a ltac:(lia)) as [c Hc'].
  rewrite Hc'. simpl.
  destruct (scale_ sc !! a) as [s|] eqn:Hs'; simpl; [|done].
  apply lookup_lt_Some in Hs'. apply IH; lia.
Qed.

(** X4.  The two ways [get_model_formula] fails.  On a model without
    coefficients the loop never binds [i] and the intercept line raises
    [UnboundLocalError]; with fewer scales than coefficients the loop raises
    [IndexError]. *)
Theorem get_model_formula_raises (r : ModelResult) :
  (coef_ (model r) = [] →
   get_model_formula r = Raise (UnboundLocalError "i"))
  ∧ (length (scale_ (scaler r)) < length (coef_ (model r)) →
     get_model_formula r = Raise IndexError).
Proof.
  split.
  - intros Hnil. unfold get_model_formula. by rewrite Hnil.
  - intros Hlt. unfold get_model_formula.
    by rewrite formula_loop_short_scale by lia.
Qed.

Lemma Rsum_offset (c_last : R) (cs ms ss : Vector) :
  length ms = length cs → length ss = length cs →
  (Rsum (zip_with Rdiv (zip_with Rmult cs ms) ss)
   - Rsum (zip_with Rdiv (map (Rmult c_last) ms) ss)
   = Rsum (zip_with (λ c q, (c - c_last) * q) cs (zip_with Rdiv ms ss)))%R.
Proof.
  revert ms ss. induction cs as [|c cs IH]; intros [|m ms] [|s ss] ??;
    simplify_eq/=; unfold Rsum in *; simpl; [lra|].
  specialize (IH ms ss ltac:(lia) ltac:(lia)). unfold Rdiv in *. lra.
Qed.

(** X5.  What the returned formula computes.  With as many means and
    scales as coefficients, [get_model_formula] returns; its coefficients
    are the coefficients over the scales; and on every row the formula
    differs from the prediction of the scaled model by the sum of
    (c_i − c_last)·mean_i/scale_i, where c_last is the coefficient the loop
    variable is left on. *)
Theorem get_model_formula_offset (r : ModelResult) (c_last : R) :
  length (mean_ (scaler r)) = length (coef_ (model r)) →
  length (scale_ (scaler r)) = length (coef_ (model r)) →
  last (coef_ (model r)) = Some c_last →
  ∃ formula,
    get_model_formula r = Ok formula
    ∧ formula.2 = zip_with Rdiv (coef_ (model r)) (scale_ (scaler r))
    ∧ ∀ row, length row = length (coef_ (model r)) →
        predict_raw formula row
        = (predict_scaled (model r) (scaler r) row
           + Rsum (zip_with (λ c q, (c - c_last) * q) (coef_ (model r))
                     (zip_with Rdiv (mean_ (scaler r)) (scale_ (scaler r)))))%R.
Proof.
  intros Hm Hs Hlast. eexists. split.
  { by apply get_model_formula_computes. }
  split; [done|]. intros row Hrow.
  rewrite <- (spec_formula_equivalence (model r) (scaler r) row) by lia.
  rewrite <- (Rsum_offset c_last) by done.
  unfold predict_raw, spec_formula. simpl. lra.
Qed.

(** X6.  With a single feature the loop variable is left on the only
    coefficient, and the returned formula predicts what the scaled model
    predicts. *)
Theorem get_model_formula_one_feature (r : ModelResult) (c mu s : R) :
  coef_ (model r) = [c] → mean_ (scaler r) = [mu] → scale_ (scaler r) = [s] →
  ∃ formula,
    get_model_formula r = Ok formula
    ∧ ∀ x, predict_raw formula [x] = predict_scaled (model r) (scaler r) [x].
Proof.
  intros Hc Hm Hs. eexists. split.
  { apply (get_model_formula_computes r c); rewrite ?Hc, ?Hm, ?Hs; done. }
  intros x. rewrite Hc, Hm, Hs.
  unfold predict_raw, predict_scaled, predict_row, scale_row, dot, Rsum.
  rewrite Hc, Hm, Hs. simpl. unfold Rdiv. lra.
Qed.
End FormulaExtras.

(* ===================================================================== *)
(** * More on cleaning ([preprocess_data]) *)
(* ===================================================================== *)

Section CleaningExtras.
Implicit Types (h : heap) (d : DataFrame) (l : nat).
Variable CONFIG : Config.
Variable parse_float : string → option R.

Lemma for_each_app {S A B} (xs ys : list A) (body : B → A → io S B) :
  ∀ acc s,
  for_each (xs ++ ys) acc body s
  = (acc' ← for_each xs acc body; for_each ys acc' body) s.
Proof.
  induction xs as [|x xs IH]; intros acc s; simpl; [done|].
  rewrite !io_bind_unfold. destruct (body acc x s) as [[acc'|e] s']; [|done].
  rewrite IH. by rewrite io_bind_unfold.
Qed.

Lemma first_missing (cols columns : list string) :
  ¬ (cols ⊆ columns) →
  ∃ pre c post, cols = pre ++ c :: post ∧ pre ⊆ columns ∧ c ∉ columns.
Proof.
  induction cols as [|c cols IH]; intros Hn.
  - exfalso. apply Hn. by intros x Hx%elem_of_nil.
  - destruct (decide (c ∈ columns)) as [Hc|Hc].
    + destruct IH as (pre & c' & post & -> & Hpre & Hc').
      { intros Hsub. apply Hn. intros x [->|Hx]%elem_of_cons; auto. }
      exists (c :: pre), c', post. split_and!; [done| |done].
      intros x [->|Hx]%elem_of_cons; auto.
    + exists [], c, cols. split_and!; [done| |done].
      by intros x Hx%elem_of_nil.
Qed.

Lemma preprocess_data_missing_column h l d pre c post :
  h !! l = Some d →
  required_cols CONFIG = pre ++ c :: post →
  pre ⊆ df_columns d → c ∉ df_columns d →
  (preprocess_data CONFIG parse_float l h).1 = Raise (KeyError c).
Proof.
  intros Hl Hreq Hpre Hc. unfold preprocess_data.
  rewrite io_bind_unfold. unfold df_copy at 1, deref, alloc.
  rewrite io_bind_unfold, Hl. rewrite io_bind_unfold.
  rewrite Hreq at 1. rewrite for_each_app, io_bind_unfold.
  rewrite (coerce_loop parse_float pre d _ (fresh (dom h)))
    by (by rewrite ?lookup_insert_eq).
  rewrite insert_insert_eq. cbn [for_each].
  rewrite !io_bind_unfold. unfold df_getitem, deref, io_lift.
  rewrite io_bind_unfold, lookup_insert_eq.
  unfold column. simpl. by rewrite bool_decide_false.
Qed.

(** X7.  [preprocess_data] returns exactly when the frame has every
    required column; otherwise it raises a bare [KeyError] naming a required
    column that is missing (there is no try block around the body). *)
Theorem preprocess_data_returns_iff (h : heap) (df : nat) (d : DataFrame) :
  h !! df = Some d →
  let run := preprocess_data CONFIG parse_float df h in
  (is_ok (run.1) = true ↔ required_cols CONFIG ⊆ df_columns d)
  ∧ (¬ (required_cols CONFIG ⊆ df_columns d) →
     ∃ c, c ∈ required_cols CONFIG ∧ (c ∉ df_columns d)
          ∧ run.1 = Raise (KeyError c)).
Proof.
  intros Hl. simpl.
  assert (¬ (required_cols CONFIG ⊆ df_columns d) →
     ∃ c, c ∈ required_cols CONFIG ∧ (c ∉ df_columns d)
          ∧ (preprocess_data CONFIG parse_float df h).1 = Raise (KeyError c))
    as Hmiss.
  { intros (pre & c & post & Hreq & Hpre & Hc)%first_missing.
    exists c. split_and!; [|done|].
    - rewrite Hreq. apply elem_of_app. right. by left.
    - by eapply preprocess_data_missing_column. }
  split; [|done]. split.
  - intros Hok. destruct (decide (required_cols CONFIG ⊆ df_columns d))
      as [|Hn]; [done|].
    destruct (Hmiss Hn) as (c & _ & _ & Hr). by rewrite Hr in Hok.
  - intros Hsub.
    destruct (preprocess_data_ok CONFIG parse_float h df d Hl Hsub)
      as (l' & h' & -> & _). done.
Qed.

Lemma cell_at_coerce_row_other cols : ∀ r c,
  c ∉ cols → cell_at (coerce_row parse_float cols r) c = cell_at r c.
Proof.
  induction cols as [|col cols IH]; intros r c Hc; [done|].
  change (coerce_row parse_float (col :: cols) r)
    with (coerce_row parse_float cols
            (set_cell col r (to_numeric_cell parse_float (cell_at r col)))).
  rewrite IH by (intros ?; apply Hc; by right).
  rewrite cell_at_set_cell, decide_False; [done|].
  intros ->. apply Hc. by left.
Qed.

Lemma cell_at_coerce_row_number cols r c x :
  cell_at r c = CNum x → cell_at (coerce_row parse_float cols r) c = CNum x.
Proof.
  intros Hx. destruct (decide (c ∈ cols)) as [Hc|Hc].
  - by rewrite cell_at_coerce_row, Hx.
  - by rewrite cell_at_coerce_row_other.
Qed.

(** X8.  What cleaning leaves alone.  The returned frame has the columns
    of the input; each of its rows comes from an input row with the same
    index label, agrees with it on every column that is not required, and
    has every number of that row unchanged. *)
Theorem preprocess_data_keeps_the_rest (h : heap) (df : nat) (d : DataFrame) :
  h !! df = Some d →
  required_cols CONFIG ⊆ df_columns d →
  let run := preprocess_data CONFIG parse_float df h in
  ∃ l' d', run.1 = Ok l' ∧ run.2 !! l' = Some d'
    ∧ df_columns d' = df_columns d
    ∧ ∀ r', r' ∈ df_rows d' →
        ∃ r, r ∈ df_rows d ∧ row_label r' = row_label r
          ∧ (∀ c, c ∉ required_cols CONFIG → cell_at r' c = cell_at r c)
          ∧ (∀ c x, cell_at r c = CNum x → cell_at r' c = CNum x).
Proof.
  intros Hl Hsub. simpl.
  destruct (preprocess_data_ok CONFIG parse_float h df d Hl Hsub)
    as (l' & h' & Hrun & _ & _ & Hd').
  rewrite Hrun. simpl. eexists l', _. split_and!; [done|exact Hd'|done|].
  simpl. intros r' Hr'.
  apply clean_rows_origin in Hr' as (r & Hr & -> & Hlabel & _).
  exists r. split_and!; [done|done| |].
  - intros c Hc. by apply cell_at_coerce_row_other.
  - intros c x Hx. by apply cell_at_coerce_row_number.
Qed.
End CleaningExtras.

Section OutlierExtras.
Implicit Types (h : heap) (d : DataFrame) (l : nat).



Variable k : R.
Hypothesis k_ge_1 : (1 <= k)%R.


End OutlierExtras.

Section OutlierExtras2.
Variable CONFIG : Config.
Variable parse_float : string → option R.

End OutlierExtras2.

(* ===================================================================== *)
(** * The outlier loop on small samples *)
(* ===================================================================== *)

Section SmallSamples.






Variable k : R.
Hypothesis k_nonneg : (0 <= k)%R.






End SmallSamples.

Section SmallFrames.
Variable CONFIG : Config.
Variable parse_float : string → option R.

End SmallFrames.

(* ===================================================================== *)
(** * More on the split ([prepare_model_data]) *)
(* ===================================================================== *)

Section SplitExtras.
Variable CONFIG : Config.
Variable rng_permutation : Z → nat → list nat.

Lemma to_numpy2_Ok df cols X :
  to_numpy2 df cols = Ok X →
  X = map (λ r, map (cell_at r) cols) (df_rows df).
Proof. unfold to_numpy2. by intros ([] & _ & [= <-])%bind_Ok. Qed.

Lemma to_numpy1_Ok df col y :
  to_numpy1 df col = Ok y → y = map (λ r, cell_at r col) (df_rows df).
Proof.
  unfold to_numpy1, column. destruct (bool_decide _); [|done].
  by intros [= <-].
Qed.

Lemma list_lookup_map {A B} (f : A → B) (l : list A) (i : nat) :
  map f l !! i = f <$> l !! i.
Proof. apply (list_lookup_fmap f l i). Qed.

Lemma take_rows_aligned {A B C} (f : C → A) (g : C → B) (rows : list C)
    (idx : list nat) (xs : list A) (ys : list B) :
  take_rows (map f rows) idx = Ok xs →
  take_rows (map g rows) idx = Ok ys →
  Forall2 (λ x y, ∃ r, r ∈ rows ∧ x = f r ∧ y = g r) xs ys.
Proof.
  intros Hx%take_rows_Ok Hy%take_rows_Ok.
  apply Forall2_same_length_lookup_2.
  { apply Forall2_length in Hx, Hy. congruence. }
  intros j x y Hjx Hjy.
  destruct (Forall2_lookup_r _ _ _ _ _ Hx Hjx) as (i & Hi & Hfx).
  destruct (Forall2_lookup_r _ _ _ _ _ Hy Hjy) as (i' & Hi' & Hgy).
  assert (i' = i) as -> by congruence.
  cbv beta in Hfx, Hgy. rewrite list_lookup_map in Hfx. rewrite list_lookup_map in Hgy.
  destruct (rows !! i) as [r|] eqn:Hr; simplify_eq/=.
  exists r. split; [by eapply list_elem_of_lookup_2|done].
Qed.

(** X10.  The split keeps each target with its features.  In the training
    set and in the test set alike, the i-th feature row and the i-th target
    are taken from one and the same row of the frame. *)
Theorem prepare_model_data_aligned (df : DataFrame) (data : ModelData) :
  prepare_model_data CONFIG rng_permutation df = Ok data →
  let paired := λ (x : list Cell) (y : Cell),
    ∃ r, r ∈ df_rows df
         ∧ x = map (cell_at r) (feature_cols CONFIG)
         ∧ y = cell_at r (target_col CONFIG) in
  Forall2 paired (X_trained data) (y_trained data)
  ∧ Forall2 paired (X_test data) (y_test data).
Proof.
  intros (X & y & train & test & HX & Hy & _ & _ & HXtr & HXte & Hytr & Hyte
         )%prepare_model_data_Ok.
  apply to_numpy2_Ok in HX as ->. apply to_numpy1_Ok in Hy as ->.
  simpl. split; by eapply take_rows_aligned.
Qed.

Lemma has_columns_missing df cols :
  ¬ (cols ⊆ df_columns df) →
  ∃ c, c ∈ cols ∧ (c ∉ df_columns df) ∧ has_columns df cols = Raise (KeyError c).
Proof.
  intros Hn. unfold has_columns.
  destruct (filter (λ c, c ∉ df_columns df) cols) as [|c cs] eqn:Hf.
  - exfalso. apply Hn. intros x Hx.
    destruct (decide (x ∈ df_columns df)) as [|Hx']; [done|].
    assert (x ∈ filter (λ c, c ∉ df_columns df) cols) as Hin
      by (by apply list_elem_of_filter).
    rewrite Hf in Hin. by apply elem_of_nil in Hin.
  - exists c. assert (c ∈ filter (λ c, c ∉ df_columns df) cols) as Hin
      by (rewrite Hf; by left).
    apply list_elem_of_filter in Hin as [Hc Hin]. done.
Qed.

(** X11.  [prepare_model_data] on a frame that lacks a feature column or
    the target column raises a bare [KeyError] for that column. *)
Theorem prepare_model_data_missing_column (df : DataFrame) :
  (¬ (feature_cols CONFIG ⊆ df_columns df) →
   ∃ c, c ∈ feature_cols CONFIG ∧ (c ∉ df_columns df)
        ∧ prepare_model_data CONFIG rng_permutation df = Raise (KeyError c))
  ∧ (feature_cols CONFIG ⊆ df_columns df →
     target_col CONFIG ∉ df_columns df →
     prepare_model_data CONFIG rng_permutation df
     = Raise (KeyError (target_col CONFIG))).
Proof.
  split.
  - intros (c & Hc & Hn & Hraise)%has_columns_missing.
    exists c. split_and!; [done|done|].
    unfold prepare_model_data, to_numpy2. by rewrite Hraise.
  - intros Hsub Hn. unfold prepare_model_data, to_numpy2, to_numpy1, column.
    rewrite has_columns_ok by done. simpl.
    by rewrite bool_decide_false.
Qed.

Lemma validate_shuffle_split_tiny (n : nat) :
  n ≤ 1 →
  validate_shuffle_split n Float64.zero_point_two
  = Raise (ValueError "the resulting train set will be empty").
Proof.
  intros Hn. destruct n as [|[|n]]; [vm_compute; reflexivity..|lia].
Qed.

(** X12.  With the test fraction 0.2, a frame of one row or none cannot
    be split: the test count leaves no training row and [train_test_split]
    raises [ValueError]. *)
Theorem prepare_model_data_too_few_rows (df : DataFrame) :
  test_size CONFIG = Float64.zero_point_two →
  feature_cols CONFIG ⊆ df_columns df →
  target_col CONFIG ∈ df_columns df →
  length (df_rows df) ≤ 1 →
  prepare_model_data CONFIG rng_permutation df
  = Raise (ValueError "the resulting train set will be empty").
Proof.
  intros Hf Hsub Htarget Hn.
  unfold prepare_model_data, to_numpy2, to_numpy1, column.
  rewrite has_columns_ok by done. simpl.
  rewrite bool_decide_true by done. simpl.
  unfold train_test_split, check_consistent_length.
  rewrite !length_map, bool_decide_true by done. simpl.
  unfold shuffle_split. rewrite Hf, validate_shuffle_split_tiny by done.
  done.
Qed.
End SplitExtras.

(* ===================================================================== *)
(** * Training and evaluation on cleaned data *)
(* ===================================================================== *)

Section ModelExtras.
Variable CONFIG : Config.
Variable parse_float : string → option R.
Variable lstsq : Matrix → Vector → Vector * R.
Variable rng_permutation : Z → nat → list nat.

Lemma handle_zeros_in_scale_pos (v : R) :
  (0 < handle_zeros_in_scale (sqrt v))%R.
Proof.
  unfold handle_zeros_in_scale. pose proof (sqrt_pos v).
  destruct (decide (sqrt v = 0%R)); lra.
Qed.

Lemma train_model_Ok data m sc :
  train_model parse_float lstsq data = Ok (m, sc) →
  scaler_fit parse_float (X_trained data) = Ok sc
  ∧ ∃ Xs, scaler_transform parse_float sc (X_trained data) = Ok Xs
          ∧ regression_fit parse_float lstsq Xs (y_trained data) = Ok m.
Proof.
  unfold train_model, scaler_fit_transform. intros H.
  apply bind_Ok in H as ([sc' Xs] & H1 & H2).
  apply bind_Ok in H1 as (sc'' & Hfit & H1).
  apply bind_Ok in H1 as (Xs' & Htr & H1).
  apply bind_Ok in H2 as (m' & Hreg & H2).
  simplify_eq. split; [done|]. by exists Xs.
Qed.

(** X13.  The scaler that [train_model] returns has one mean and one
    scale for each feature of the training rows, and every scale is
    positive (a zero standard deviation is replaced by one). *)
Theorem train_model_scaler_invariant (data : ModelData)
    (m : LinearRegression) (sc : StandardScaler) :
  train_model parse_float lstsq data = Ok (m, sc) →
  length (mean_ sc) = length (scale_ sc)
  ∧ Forall (λ row, length row = length (mean_ sc)) (X_trained data)
  ∧ Forall (λ s, (0 < s)%R) (scale_ sc).
Proof.
  intros [Hfit (Xs & Htr & _)]%train_model_Ok.
  unfold scaler_transform in Htr.
  apply bind_Ok in Htr as (M & HM & Htr).
  apply bind_Ok in Htr as ([] & Hn & _).
  pose proof (check_array_Ok _ _ _ HM) as [_ Hshape].
  unfold scaler_fit in Hfit. rewrite HM in Hfit. simpl in Hfit.
  injection Hfit as <-. simpl in *. split_and!.
  - by rewrite !length_map.
  - unfold check_n_features in Hn.
    destruct (forallb _ M) eqn:Hall; [|done].
    rewrite forallb_forall in Hall.
    apply Forall_forall. intros row Hrow.
    apply list_elem_of_lookup in Hrow as [i Hi].
    destruct (Forall2_lookup_l _ _ _ _ _ Hshape Hi) as (mrow & Hm & Hlen).
    rewrite <- Hlen. apply Nat.eqb_eq, Hall.
    apply list_elem_of_In. by eapply list_elem_of_lookup_2.
  - apply Forall_forall. intros s (col & -> & _)%list_elem_of_fmap.
    apply handle_zeros_in_scale_pos.
Qed.









End ModelExtras.

Section PipelineExtras.
Variable CONFIG : Config.
Variable parse_float : string → option R.
Variable lstsq : Matrix → Vector → Vector * R.
Variable rng_permutation : Z → nat → list nat.









End PipelineExtras.

(* ===================================================================== *)
(** * Metrics, prediction and loading *)
(* ===================================================================== *)

Section MetricExtras.
Variable parse_float : string → option R.

Lemma Rsum_zero (xs : Vector) :
  Forall (λ x, 0 <= x)%R xs → Rsum xs = 0%R → Forall (λ x, x = 0%R) xs.
Proof.
  induction 1 as [|x xs Hx Hxs IH]; intros Hsum; [done|].
  pose proof (Rsum_nonneg xs Hxs) as Hrest.
  change (Rsum (x :: xs)) with (x + Rsum xs)%R in Hsum.
  constructor; [lra|]. apply IH. lra.
Qed.

Lemma squared_errors_zero (ys ps : Vector) :
  length ys = length ps →
  Rsum (squared_errors ys ps) = 0%R ↔ ys = ps.
Proof.
  intros Hlen. split.
  - intros Hsum.
    pose proof (Rsum_zero _ (squared_errors_nonneg ys ps) Hsum) as Hall.
    clear Hsum. revert ps Hlen Hall.
    induction ys as [|y ys IH]; intros [|p ps] Hlen Hall; simplify_eq/=;
      [done|].
    apply Forall_cons in Hall as [Hy Hall].
    f_equal; [nra|by apply IH].
  - intros <-. clear Hlen. induction ys as [|y ys IH]; [done|].
    change (Rsum (squared_errors (y :: ys) (y :: ys)))
      with ((y - y) * (y - y) + Rsum (squared_errors ys ys))%R.
    rewrite IH. lra.
Qed.

Lemma check_array_1d_Ok (y : ndarray1) (ys : Vector) :
  check_array_1d parse_float y = Ok ys → ys ≠ [] ∧ length ys = length y.
Proof.
  unfold check_array_1d.
  intros (y1 & H1 & (y2 & H2 & H)%bind_Ok)%bind_Ok.
  destruct (bool_decide (y2 = [])) eqn:Hnil; [done|].
  injection H as <-. apply bool_decide_eq_false in Hnil. split; [done|].
  apply mapM_Ok_length in H1, H2. congruence.
Qed.

Lemma mean_squared_error_zero (y : ndarray1) (preds : Vector) (v : R) :
  mean_squared_error parse_float y preds = Ok v →
  sqrt v = 0%R ↔ check_array_1d parse_float y = Ok preds.
Proof.
  unfold mean_squared_error, check_consistent_length.
  intros ([] & Hlen & (ys & Hys & [= <-])%bind_Ok)%bind_Ok.
  destruct (bool_decide (length y = length preds)) eqn:Hl; [|done].
  apply bool_decide_eq_true in Hl.
  destruct (check_array_1d_Ok _ _ Hys) as [Hne Hlen'].
  assert (0 < INR (length ys))%R as Hn.
  { apply lt_0_INR. destruct ys; [done|simpl; lia]. }
  pose proof (Rsum_nonneg _ (squared_errors_nonneg ys preds)) as Hnum.
  rewrite Hys. split.
  - intros Hsqrt. apply sqrt_eq_0 in Hsqrt.
    2:{ apply Rmult_le_pos; [done|]. left. by apply Rinv_0_lt_compat. }
    f_equal. apply squared_errors_zero; [congruence|].
    apply (Rmult_eq_reg_r (/ INR (length ys))); [|apply Rinv_neq_0_compat; lra].
    unfold Rdiv in Hsqrt. lra.
  - intros [= ->]. 
    rewrite (proj2 (squared_errors_zero preds preds eq_refl) eq_refl).
    unfold Rdiv. rewrite Rmult_0_l. apply sqrt_0.
Qed.

Lemma r2_score_perfect (y : ndarray1) (preds : Vector) (v : R) :
  check_array_1d parse_float y = Ok preds →
  r2_score parse_float y preds = Ok (Some v) → v = 1%R.
Proof.
  intros Hys. unfold r2_score. rewrite Hys.
  intros (_ & _ & H)%bind_Ok. simpl in H.
  destruct (bool_decide _); [done|]. injection H as <-.
  rewrite (proj2 (squared_errors_zero preds preds eq_refl) eq_refl).
  destruct (decide _); [by rewrite decide_True|].
  unfold Rdiv. lra.
Qed.

(** X16.  The RMSE that [evaluate_model] reports is zero exactly when
    every prediction equals its target, on the training set and on the test
    set; and then the R² reported, if it is a number, is one. *)
Theorem evaluate_model_rmse_zero (data : ModelData) (m : LinearRegression)
    (sc : StandardScaler) (r : ModelResult) :
  evaluate_model parse_float data m sc = Ok r →
  (train_rmse r = 0%R
   ↔ check_array_1d parse_float (y_trained data) = Ok (train_predictions r))
  ∧ (test_rmse r = 0%R
     ↔ check_array_1d parse_float (y_test data) = Ok (test_predictions r))
  ∧ (train_rmse r = 0%R → ∀ v, train_r2 r = Some v → v = 1%R)
  ∧ (test_rmse r = 0%R → ∀ v, test_r2 r = Some v → v = 1%R).
Proof.
  unfold evaluate_model.
  intros (Xtr & _ & (Xte & _ & (ptr & _ & (pte & _ & (r2tr & Hr2tr
    & (r2te & Hr2te & (msetr & Hmtr & (msete & Hmte & [= <-])%bind_Ok)%bind_Ok
    )%bind_Ok)%bind_Ok)%bind_Ok)%bind_Ok)%bind_Ok)%bind_Ok.
  simpl.
  pose proof (mean_squared_error_zero _ _ _ Hmtr) as Htr.
  pose proof (mean_squared_error_zero _ _ _ Hmte) as Hte.
  split_and!; [done|done| |].
  - intros Hz%Htr v ->. by eapply r2_score_perfect.
  - intros Hz%Hte v ->. by eapply r2_score_perfect.
Qed.
End MetricExtras.

Section PredictExtras.
Variable CONFIG : Config.
Variable parse_float : string → option R.

(** X17.  [make_predictions] raises nothing but [ModelOperationError];
    and when it returns, the frame has the required columns and at least
    one row, there is one prediction for each row, and the scaler was fitted
    on as many columns as there are required columns. *)
Theorem make_predictions_contract (df : DataFrame) (m : LinearRegression)
    (sc : StandardScaler) :
  (∀ e, make_predictions CONFIG parse_float df m sc = Raise e →
        is_ModelOperationError e = true)
  ∧ (∀ preds, make_predictions CONFIG parse_float df m sc = Ok preds →
       required_cols CONFIG ⊆ df_columns df
       ∧ length preds = length (df_rows df)
       ∧ df_rows df ≠ []
       ∧ length (mean_ sc) = length (required_cols CONFIG)).
Proof.
  unfold make_predictions, try_except.
  destruct (_ ≫= _) as [preds|e] eqn:Hrun; simpl.
  - split; [done|]. intros ? [= <-].
    apply bind_Ok in Hrun as (X & HX & Hrun).
    apply bind_Ok in Hrun as (Xs & HXs & Hpred).
    unfold scaler_transform in HXs.
    apply bind_Ok in HXs as (M & HM & HXs).
    apply bind_Ok in HXs as ([] & Hn & [= <-]).
    unfold regression_predict in Hpred.
    apply bind_Ok in Hpred as ([] & _ & Hpred).
    apply bind_Ok in Hpred as ([] & _ & [= <-]).
    pose proof (check_array_Ok _ _ _ HM) as [Hne Hshape].
    pose proof (to_numpy2_shape _ _ _ HX) as [Hlen Hrows].
    pose proof (Forall2_length _ _ _ Hshape) as HlenM.
    split_and!.
    + unfold to_numpy2, has_columns in HX.
      destruct (filter _ _) as [|c cs] eqn:Hf; [|done].
      intros c Hc. destruct (decide (c ∈ df_columns df)) as [|Hn']; [done|].
      assert (c ∈ filter (λ c, c ∉ df_columns df) (required_cols CONFIG))
        as Hin by (by apply list_elem_of_filter).
      rewrite Hf in Hin. by apply elem_of_nil in Hin.
    + rewrite !length_map. congruence.
    + intros Hnil. rewrite Hnil in Hlen. destruct X; [|done].
      apply Forall2_nil_inv_l in Hshape. done.
    + destruct Hshape as [|row mrow X' M' Hrow _]; [done|].
      apply Forall_cons in Hrows as [Hrow' _].
      unfold check_n_features in Hn. simpl in Hn.
      destruct (length mrow =? length (mean_ sc)) eqn:Heq; [|done].
      apply Nat.eqb_eq in Heq. congruence.
  - split; [|done]. by intros ? [= <-].
Qed.
End PredictExtras.

Section LoadExtras.
Variable CONFIG : Config.
Variable parse_float : string → option R.
Variable read_csv : FileData → outcome DataFrame.

(** X18.  Loading then cleaning.  A frame that [load_data] returned is
    always accepted by [preprocess_data], which returns a frame with the
    same columns and no more rows. *)
Theorem loaded_frame_is_cleaned (filepath : string) (fs fs' : FileSystem)
    (d : DataFrame) (h : heap) (df : nat) :
  load_data CONFIG read_csv filepath fs = (Ok d, fs') →
  h !! df = Some d →
  let run := preprocess_data CONFIG parse_float df h in
  ∃ l' d', run.1 = Ok l' ∧ run.2 !! l' = Some d'
           ∧ df_columns d' = df_columns d
           ∧ length (df_rows d') ≤ length (df_rows d).
Proof.
  intros Hload Hl. simpl.
  rewrite load_data_cases in Hload.
  assert (required_cols CONFIG ⊆ df_columns d) as Hsub.
  { destruct (fs_files fs !! filepath) as [data|]; [|done].
    destruct (read_csv data) as [d0|]; [|done].
    destruct (decide (required_cols CONFIG ⊆ df_columns d0)) as [Hs|Hs].
    - rewrite bool_decide_true in Hload by done. by simplify_eq.
    - by rewrite bool_decide_false in Hload by done. }
  destruct (preprocess_data_ok CONFIG parse_float h df d Hl Hsub)
    as (l' & h' & Hrun & _ & _ & Hd').
  rewrite Hrun. simpl. eexists l', _. split_and!; [done|exact Hd'|done|].
  simpl. etrans.
  - apply sublist_length, clean_rows_sublist.
  - etrans; [apply sublist_length, list_filter_sublist|].
    by rewrite length_map.
Qed.
End LoadExtras.

(* ===================================================================== *)
(** * The properties on the concrete inputs *)
(* ===================================================================== *)

(** ** Cleaning three rows

    The row with text and the row with the missing price are dropped; the
    frame that was passed in is still there, unchanged, and the result is
    another object. *)
Lemma preprocess_data_messy_houses :
  let run := preprocess_data default_config sample_parse_float 0
               {[ 0 := messy_houses ]} in
  ∃ l', run.1 = Ok l'
    ∧ run.2 !! 0 = Some messy_houses
    ∧ l' ≠ 0
    ∧ run.2 !! l' = Some {| df_columns := df_columns messy_houses;
                            df_rows := [house 0 1000 2 100] |}.
Proof. vm_compute. eexists. repeat split. lia. Qed.

(** ** The outlier pass on three houses

    With threshold 1 the first column drops the third house (4000 lies above
    2000 + σ, σ < 2000); the other two columns are then judged on the two
    houses that are left, and keep them. *)

Lemma sqrt_between (v lo hi : R) :
  (0 <= lo)%R → (0 <= hi)%R → (lo * lo < v)%R → (v < hi * hi)%R →
  (lo < sqrt v < hi)%R.
Proof.
  intros Hlo Hhi H1 H2.
  split.
  - rewrite <- (sqrt_square lo) at 1 by lra. apply sqrt_lt_1; nra.
  - rewrite <- (sqrt_square hi) by lra. apply sqrt_lt_1; nra.
Qed.

(** Evaluating one column of the outlier pass: the values, their mean, and
    bounds on the standard deviation decide each row. *)
Ltac outlier_step xs μ σlo σhi :=
  unfold outlier_step_spec;
  change (series_values _) with xs;
  rewrite decide_True by (simpl; lia);
  unfold sample_std;
  assert (sample_mean xs = μ) as -> by (unfold sample_mean, Rsum; simpl; lra);
  let Hlo := fresh "Hlo" in
  let Hhi := fresh "Hhi" in
  match goal with
  | |- context [sqrt ?v] =>
      destruct (sqrt_between v σlo σhi) as [Hlo Hhi];
      [lra|lra|unfold Rsum; simpl; lra|unfold Rsum; simpl; lra|];
      generalize dependent (sqrt v); intros
  end.

Ltac keep_row v :=
  rewrite filter_cons_True by (change (cell_at _ _) with (CNum v); simpl; lra).
Ltac drop_row v :=
  rewrite filter_cons_False by (change (cell_at _ _) with (CNum v); simpl; lra).

Lemma three_houses_outlier_pass :
  outlier_pass_spec 1 (required_cols strict_config) (df_rows three_houses)
  = [house 0 1000 2 100; house 1 1000 3 200].
Proof.
  change (outlier_pass_spec 1 (required_cols strict_config)
            (df_rows three_houses))
    with (outlier_step_spec 1
            (outlier_step_spec 1
               (outlier_step_spec 1 (df_rows three_houses) "square_footage")
               "bedrooms")
            "price_thousands").
  assert (outlier_step_spec 1 (df_rows three_houses) "square_footage"
          = [house 0 1000 2 100; house 1 1000 3 200]) as ->.
  { outlier_step [1000; 1000; 4000]%R 2000%R 1000%R 2000%R.
    simpl df_rows. keep_row 1000%R. keep_row 1000%R. drop_row 4000%R. done. }
  assert (outlier_step_spec 1 [house 0 1000 2 100; house 1 1000 3 200] "bedrooms"
          = [house 0 1000 2 100; house 1 1000 3 200]) as ->.
  { outlier_step [2; 3]%R (5/2)%R (1/2)%R 1%R.
    keep_row 2%R. keep_row 3%R. done. }
  outlier_step [100; 200]%R 150%R 50%R 100%R.
  keep_row 100%R. keep_row 200%R. done.
Qed.

Lemma outlier_pass_sequential_three_houses :
  ∃ l' h',
    outlier_pass strict_config 0 {[ 0 := three_houses ]} = (Ok l', h')
    ∧ h' !! l' = Some {| df_columns := df_columns three_houses;
                         df_rows := [house 0 1000 2 100;
                                     house 1 1000 3 200] |}.
Proof.
  destruct (outlier_pass_sequential strict_config {[ 0 := three_houses ]} 0
              three_houses) as (l' & h' & Hrun & Hres); [reflexivity|done|].
  exists l', h'. split; [exact Hrun|].
  rewrite Hres. f_equal. f_equal. apply three_houses_outlier_pass.
Defined.

(** ** The split of six houses *)





Lemma make_predictions_raises_six_houses :
  ∃ data m sc,
    prepare_model_data default_config sample_permutation six_houses = Ok data
    ∧ train_model sample_parse_float formula_lstsq data = Ok (m, sc)
    ∧ ∃ e, make_predictions default_config sample_parse_float six_houses m sc
           = Raise (ModelOperationError "failed to make prediction" (Some e)).
Proof.
  eexists _, _, _. split; [vm_compute; reflexivity|]. split; [reflexivity|].
  eapply (make_predictions_always_raises default_config sample_parse_float
            formula_lstsq sample_permutation six_houses six_houses);
    [simpl; lia|vm_compute; reflexivity|reflexivity].
Defined.



(* ===================================================================== *)
(** * The further properties on the concrete inputs *)
(* ===================================================================== *)

(** ** Saving and loading the fitted model *)


(** ** The formula of the fitted model *)

Lemma get_model_formula_offset_formula_data :
  ∃ formula,
    get_model_formula formula_result = Ok formula
    ∧ formula.2 = zip_with Rdiv (coef_ (model formula_result))
                    (scale_ (scaler formula_result))
    ∧ ∀ row, length row = length (coef_ (model formula_result)) →
        predict_raw formula row
        = (predict_scaled (model formula_result) (scaler formula_result) row
           + Rsum (zip_with (λ c q, (c - 10) * q)
                     (coef_ (model formula_result))
                     (zip_with Rdiv (mean_ (scaler formula_result))
                        (scale_ (scaler formula_result)))))%R.
Proof.
  apply (get_model_formula_offset formula_result 10%R); reflexivity.
Defined.

Lemma get_model_formula_one_feature_example :
  ∃ formula,
    get_model_formula one_feature_result = Ok formula
    ∧ ∀ x, predict_raw formula [x]
           = predict_scaled (model one_feature_result)
               (scaler one_feature_result) [x].
Proof.
  apply (get_model_formula_one_feature one_feature_result 100%R 2000%R 1000%R);
    reflexivity.
Defined.

(** ** Cleaning *)

Lemma preprocess_data_returns_iff_messy_houses :
  let run := preprocess_data default_config sample_parse_float 0
               {[ 0 := messy_houses ]} in
  (is_ok (run.1) = true
   ↔ required_cols default_config ⊆ df_columns messy_houses)
  ∧ (¬ (required_cols default_config ⊆ df_columns messy_houses) →
     ∃ c, c ∈ required_cols default_config
          ∧ (c ∉ df_columns messy_houses)
          ∧ run.1 = Raise (KeyError c)).
Proof.
  apply (preprocess_data_returns_iff default_config sample_parse_float
           {[ 0 := messy_houses ]} 0 messy_houses).
  reflexivity.
Defined.

Lemma preprocess_data_keeps_the_rest_six_listings :
  let run := preprocess_data default_config sample_parse_float 0
               {[ 0 := six_listings ]} in
  ∃ l' d', run.1 = Ok l' ∧ run.2 !! l' = Some d'
    ∧ df_columns d' = df_columns six_listings
    ∧ ∀ r', r' ∈ df_rows d' →
        ∃ r, r ∈ df_rows six_listings ∧ row_label r' = row_label r
          ∧ (∀ c, c ∉ required_cols default_config →
                  cell_at r' c = cell_at r c)
          ∧ (∀ c x, cell_at r c = CNum x → cell_at r' c = CNum x).
Proof.
  apply (preprocess_data_keeps_the_rest default_config sample_parse_float
           {[ 0 := six_listings ]} 0 six_listings).
  - reflexivity.
  - apply (bool_decide_unpack _). reflexivity.
Defined.


(** ** The split *)

Lemma prepare_model_data_aligned_six_houses :
  ∃ data,
    prepare_model_data default_config sample_permutation six_houses = Ok data
    ∧ let paired := λ (x : list Cell) (y : Cell),
        ∃ r, r ∈ df_rows six_houses
             ∧ x = map (cell_at r) (feature_cols default_config)
             ∧ y = cell_at r (target_col default_config) in
      Forall2 paired (X_trained data) (y_trained data)
      ∧ Forall2 paired (X_test data) (y_test data).
Proof.
  destruct (prepare_model_data default_config sample_permutation six_houses)
    as [data|e] eqn:Hprep; [|by vm_compute in Hprep].
  exists data. split; [done|].
  apply (prepare_model_data_aligned default_config sample_permutation
           six_houses data Hprep).
Defined.

Lemma prepare_model_data_too_few_rows_one_house :
  prepare_model_data default_config sample_permutation one_house
  = Raise (ValueError "the resulting train set will be empty").
Proof.
  apply (prepare_model_data_too_few_rows default_config sample_permutation
           one_house).
  - reflexivity.
  - apply (bool_decide_unpack _). reflexivity.
  - apply (bool_decide_unpack _). reflexivity.
  - simpl. lia.
Defined.

(** ** Training and evaluation *)

Lemma train_model_scaler_invariant_formula_data :
  length (mean_ formula_scaler) = length (scale_ formula_scaler)
  ∧ Forall (λ row, length row = length (mean_ formula_scaler))
      (X_trained formula_data)
  ∧ Forall (λ s, (0 < s)%R) (scale_ formula_scaler).
Proof.
  apply (train_model_scaler_invariant sample_parse_float formula_lstsq
           formula_data formula_model formula_scaler).
  apply formula_model_trained.
Defined.

Lemma evaluate_model_rmse_zero_formula_data :
  ∃ r, evaluate_model sample_parse_float formula_data formula_model
         formula_scaler = Ok r
  ∧ (train_rmse r = 0%R
     ↔ check_array_1d sample_parse_float (y_trained formula_data)
       = Ok (train_predictions r))
  ∧ (test_rmse r = 0%R
     ↔ check_array_1d sample_parse_float (y_test formula_data)
       = Ok (test_predictions r))
  ∧ (train_rmse r = 0%R → ∀ v, train_r2 r = Some v → v = 1%R)
  ∧ (test_rmse r = 0%R → ∀ v, test_r2 r = Some v → v = 1%R).
Proof.
  eexists. split; [reflexivity|].
  apply (evaluate_model_rmse_zero sample_parse_float formula_data
           formula_model formula_scaler). reflexivity.
Defined.

(** ** Loading then cleaning *)

Lemma loaded_frame_is_cleaned_six_houses :
  let run := preprocess_data default_config sample_parse_float 0
               {[ 0 := six_houses ]} in
  ∃ l' d', run.1 = Ok l' ∧ run.2 !! l' = Some d'
           ∧ df_columns d' = df_columns six_houses
           ∧ length (df_rows d') ≤ length (df_rows six_houses).
Proof.
  apply (loaded_frame_is_cleaned default_config sample_parse_float
           sample_read_csv "data/houses.csv" csv_fs csv_fs six_houses
           {[ 0 := six_houses ]} 0).
  - vm_compute. reflexivity.
  - reflexivity.
Defined.

(** ** Cleaning six houses: nothing is dropped *)


(** ** From cleaning to evaluation, on three houses

    The cleaning leaves two houses; the split gives one to training and one
    to the test set; training and evaluation return. *)





(** ** Prediction with a scaler for three columns

    [make_predictions] does return when the scaler and the model were
    fitted on as many columns as are required. *)
Lemma make_predictions_three_columns :
  ∃ preds,
    make_predictions default_config sample_parse_float six_houses
      three_column_model three_column_scaler = Ok preds
    ∧ length preds = 6.
Proof. eexists. split; reflexivity. Qed.
